(** * DocAnalyzerOllama: the extract / analyze / revise pipeline of
    [src/doc_analyzer.py], embedded in Rocq.

    Python values that come out of [json.loads] are the inductive [json];
    a [dict] is an association list in insertion order (the order
    [json.dumps] prints).  Raising is the [Raise] constructor of [result];
    printing, the browser and the model subprocess are events of a trace
    threaded by the monad [M].  A character is a code point below 256, held
    in [Ascii.ascii]. *)

From Stdlib Require Import List String Ascii ZArith Lia Bool Arith.
From Stdlib Require Import Floats.PrimFloat Floats.SpecFloat Floats.FloatOps.
From Stdlib Require Import Numbers.DecimalString.
Import ListNotations.
Open Scope string_scope.
Set Warnings "-register-all".

(** ** Python values, exceptions and the primitives the source uses *)

Module Py.

(** The value a JSON document parses to: [None], [bool], [int], [float],
    [str], [list], [dict]. *)
Inductive json : Type :=
| JNull
| JBool (b : bool)
| JInt (n : Z)
| JFloat (f : float)
| JStr (s : string)
| JList (xs : list json)
| JDict (kvs : list (string * json)).

Definition dict := list (string * json).

(** Exception classes that occur in a run; every one derives from
    [Exception], and [JSONDecodeError] derives from [ValueError]. *)
Inductive exn_class : Type :=
| Exception_
| ValueError
| JSONDecodeError
| KeyError
| TypeError
| AttributeError
| OverflowError
| OtherError (name : string).

(** A raised exception: its class and the text [str(e)] formats to. *)
Record exn : Type := mk_exn { exn_cls : exn_class; exn_str : string }.

Inductive result (A : Type) : Type :=
| Ok (a : A)
| Raise (e : exn).
Arguments Ok {A} a.
Arguments Raise {A} e.

Definition rbind {A B} (r : result A) (k : A -> result B) : result B :=
  match r with
  | Ok a => k a
  | Raise e => Raise e
  end.

Notation "'let?' x ':=' r 'in' k" := (rbind r (fun x => k))
  (at level 10, x name, r at level 100, k at level 200).

(** [isinstance(e, ValueError)], the test of the clause
    [except (json.JSONDecodeError, ValueError)]. *)
Definition is_value_error (e : exn) : bool :=
  match exn_cls e with
  | ValueError | JSONDecodeError => true
  | _ => false
  end.

(** [type(v).__name__] *)
Definition type_name (v : json) : string :=
  match v with
  | JNull => "NoneType"
  | JBool _ => "bool"
  | JInt _ => "int"
  | JFloat _ => "float"
  | JStr _ => "str"
  | JList _ => "list"
  | JDict _ => "dict"
  end.

Definition no_attribute (v : json) (attr : string) : exn :=
  mk_exn AttributeError
    ("'" ++ type_name v ++ "' object has no attribute '" ++ attr ++ "'").

(** [d.get(k)], [None] of Python being [None] of [option]. *)
Fixpoint dict_lookup (k : string) (d : dict) : option json :=
  match d with
  | [] => None
  | (k', v) :: d' => if String.eqb k k' then Some v else dict_lookup k d'
  end.

(** [d.get(k, default)] *)
Definition dict_get (d : dict) (k : string) (default : json) : json :=
  match dict_lookup k d with
  | Some v => v
  | None => default
  end.

(** [d[k]]; [str(KeyError(k))] is the [repr] of the key, written here for
    keys without quotes or escapes, as the keys of the source are. *)
Definition dict_getitem (d : dict) (k : string) : result json :=
  match dict_lookup k d with
  | Some v => Ok v
  | None => Raise (mk_exn KeyError ("'" ++ k ++ "'"))
  end.

(** [v.get(k, default)] on an arbitrary value: only a [dict] has [get]. *)
Definition get_method (v : json) (k : string) (default : json) : result json :=
  match v with
  | JDict d => Ok (dict_get d k default)
  | _ => Raise (no_attribute v "get")
  end.

(** Field access used to read results back: the value at key [k] of a
    [dict], nothing on any other value. *)
Definition field (k : string) (v : json) : option json :=
  match v with
  | JDict d => dict_lookup k d
  | _ => None
  end.

Definition is_str (v : json) : bool :=
  match v with
  | JStr _ => true
  | _ => false
  end.

(** *** Strings *)

(** The line feed and the double quote, which string literals here do not
    hold. *)
Definition nl : string := String "010"%char EmptyString.
Definition dquote : string := String "034"%char EmptyString.

Definition non_empty (s : string) : bool :=
  match s with
  | EmptyString => false
  | String _ _ => true
  end.

(** [str.isspace] on one character, for the code points below 256. *)
Definition is_space (c : ascii) : bool :=
  let n := nat_of_ascii c in
  (((9 <=? n) && (n <=? 13)) || ((28 <=? n) && (n <=? 32))
   || (n =? 133) || (n =? 160))%nat.

Fixpoint lstrip (s : string) : string :=
  match s with
  | EmptyString => EmptyString
  | String c s' => if is_space c then lstrip s' else s
  end.

Fixpoint rstrip (s : string) : string :=
  match s with
  | EmptyString => EmptyString
  | String c s' =>
      match rstrip s' with
      | EmptyString => if is_space c then EmptyString else String c EmptyString
      | r => String c r
      end
  end.

(** [s.strip()] *)
Definition strip (s : string) : string := rstrip (lstrip s).

(** [s[:n]] *)
Fixpoint take (n : nat) (s : string) : string :=
  match n, s with
  | S n', String c s' => String c (take n' s')
  | _, _ => EmptyString
  end.

Definition chars (s : string) : list string :=
  map (fun c => String c EmptyString) (list_ascii_of_string s).

Definition decimal (n : nat) : string :=
  NilEmpty.string_of_uint (Nat.to_uint n).

(** *** Truth value, [+] and [str.join] *)

(** [bool(v)] *)
Definition truthy (v : json) : bool :=
  match v with
  | JNull => false
  | JBool b => b
  | JInt n => negb (n =? 0)%Z
  | JFloat f => negb (PrimFloat.is_zero f)
  | JStr s => non_empty s
  | JList xs => match xs with [] => false | _ :: _ => true end
  | JDict d => match d with [] => false | _ :: _ => true end
  end.

(** [float(n)] of an [int]: the nearest double, ties to even. *)
Definition float_of_Z (n : Z) : float :=
  SF2Prim (binary_normalize 53 1024 n 0 false).

Definition int_to_float (n : Z) : result float :=
  let f := float_of_Z n in
  if PrimFloat.is_infinity f
  then Raise (mk_exn OverflowError "int too large to convert to float")
  else Ok f.

(** The numeric reading of a value: [bool] is a subclass of [int]. *)
Definition as_number (v : json) : option (Z + float) :=
  match v with
  | JBool b => Some (inl (if b then 1%Z else 0%Z))
  | JInt n => Some (inl n)
  | JFloat f => Some (inr f)
  | _ => None
  end.

Definition unsupported_add (a b : json) : exn :=
  mk_exn TypeError ("unsupported operand type(s) for +: '" ++ type_name a
                    ++ "' and '" ++ type_name b ++ "'").

Definition cannot_concatenate (kind : string) (b : json) : exn :=
  mk_exn TypeError ("can only concatenate " ++ kind ++ " (not " ++ dquote
                    ++ type_name b ++ dquote ++ ") to " ++ kind).

(** [a + b] *)
Definition add (a b : json) : result json :=
  match a, b with
  | JList xs, JList ys => Ok (JList (xs ++ ys))
  | JList _, _ => Raise (cannot_concatenate "list" b)
  | JStr s, JStr t => Ok (JStr (s ++ t))
  | JStr _, _ => Raise (cannot_concatenate "str" b)
  | _, _ =>
      match as_number a, as_number b with
      | Some (inl m), Some (inl n) => Ok (JInt (m + n))
      | Some (inr f), Some (inr g) => Ok (JFloat (PrimFloat.add f g))
      | Some (inl m), Some (inr g) =>
          let? f := int_to_float m in Ok (JFloat (PrimFloat.add f g))
      | Some (inr f), Some (inl n) =>
          let? g := int_to_float n in Ok (JFloat (PrimFloat.add f g))
      | _, _ => Raise (unsupported_add a b)
      end
  end.

(** The items of a sequence handed to [join], each of which must be a
    [str]; [i] is the index of the first item. *)
Fixpoint str_items (i : nat) (xs : list json) : result (list string) :=
  match xs with
  | [] => Ok []
  | JStr s :: xs' => let? rest := str_items (S i) xs' in Ok (s :: rest)
  | x :: _ =>
      Raise (mk_exn TypeError ("sequence item " ++ decimal i
                               ++ ": expected str instance, "
                               ++ type_name x ++ " found"))
  end.

(** [sep.join(v)]: a [list] gives its items, a [str] its characters, a
    [dict] its keys; nothing else is iterable. *)
Definition join (sep : string) (v : json) : result string :=
  match v with
  | JList xs => let? items := str_items 0 xs in Ok (String.concat sep items)
  | JStr s => Ok (String.concat sep (chars s))
  | JDict d => Ok (String.concat sep (map fst d))
  | _ => Raise (mk_exn TypeError "can only join an iterable")
  end.

End Py.
Import Py.

(** ** [normalize_analysis_json] *)

(** The inner function [wrap(key)], closed over [raw_json]. *)
Definition wrap (raw_json : dict) (key : string) : result json :=
  let? assessment := dict_getitem raw_json key in
  Ok (JDict [("assessment", assessment);
             ("suggestions",
              JList [JStr ("Improve " ++ key ++ " clarity");
                     JStr ("Use simpler structure for " ++ key)])]).

Definition normalize_analysis_json (raw_json : json) : result json :=
  match raw_json with
  | JDict d =>
      match dict_lookup "readability" d with
      | Some (JStr _) =>
          let? readability := wrap d "readability" in
          let? structure := wrap d "structure" in
          let? completeness := wrap d "completeness" in
          Ok (JDict [("readability", readability);
                     ("structure", structure);
                     ("completeness", completeness);
                     ("style_guidelines",
                      JDict [("assessment", JStr "Review");
                             ("suggestions",
                              dict_get d "style_guidelines" (JList []))])])
      | _ => Ok raw_json
      end
  | _ => Raise (no_attribute raw_json "get")
  end.

(** ** [extract_json] *)

(** The pattern language of the one regular expression of the source:
    literal characters and [.*] (greedy; under [re.DOTALL] the dot matches
    every character, the line feed included). *)
Inductive re_atom : Type :=
| RLit (c : ascii)
| RDotStar.

(** Backtracking match of a pattern at the start of [s]: the matched prefix.
    [.*] first takes as many characters as there are and gives them back one
    at a time until the rest of the pattern matches. *)
Fixpoint re_match (p : list re_atom) : string -> option string :=
  match p with
  | [] => fun _ => Some EmptyString
  | RLit c :: p' =>
      fun s =>
        match s with
        | EmptyString => None
        | String x s' =>
            if Ascii.eqb x c then option_map (String x) (re_match p' s')
            else None
        end
  | RDotStar :: p' =>
      fix star (s : string) : option string :=
        match s with
        | EmptyString => re_match p' EmptyString
        | String x s' =>
            match star s' with
            | Some m => Some (String x m)
            | None => re_match p' s
            end
        end
  end.

(** [re.search]: the match at the leftmost position that has one. *)
Fixpoint re_search (p : list re_atom) (s : string) : option string :=
  match re_match p s with
  | Some m => Some m
  | None =>
      match s with
      | EmptyString => None
      | String _ s' => re_search p s'
      end
  end.

(** The pattern [(\{.*\})]; its group 1 is the whole match. *)
Definition json_object_re : list re_atom :=
  [RLit "{"%char; RDotStar; RLit "}"%char].

Definition extract_json (text : string) : result string :=
  match re_search json_object_re text with
  | None => Raise (mk_exn ValueError "No JSON object found in text")
  | Some group1 => Ok group1
  end.

Definition example_text : string :=
  "Here is the result: {" ++ dquote ++ "a" ++ dquote ++ ": {" ++ dquote
  ++ "b" ++ dquote ++ ": 1}} Thanks!".

Definition example_span : string :=
  "{" ++ dquote ++ "a" ++ dquote ++ ": {" ++ dquote ++ "b" ++ dquote
  ++ ": 1}}".

(** ** The two prompts *)

Definition unlines (ls : list string) : string := String.concat nl ls.

Definition build_analysis_prompt (title article_text : string) : string :=
  unlines
    [EmptyString;
     "You are a documentation analyzer assistant.";
     EmptyString;
     "Analyze the following documentation article and provide actionable suggestions based on:";
     EmptyString;
     "1. Readability for a marketer (explain why it is or isn't readable).";
     "2. Structure and flow (headings, paragraphs, lists, logical order).";
     "3. Completeness of information and examples (are details and examples sufficient?).";
     "4. Adherence to Microsoft Style Guide tips:";
     "   - Use bigger ideas, fewer words.";
     "   - Write like you speak.";
     "   - Project friendliness with contractions.";
     EmptyString;
     "Article Title: " ++ title;
     EmptyString;
     "Article Content:";
     article_text;
     EmptyString;
     "Provide your analysis as a JSON object with keys: readability, structure, completeness, style_guidelines.";
     "Each key should have 'assessment' (string) and 'suggestions' (list of strings).";
     EmptyString].

(** The f-string that [build_revision_prompt] returns. *)
Definition revision_template (article_text suggestions_text : string) : string :=
  unlines
    [EmptyString;
     "You are a skilled technical writer assistant.";
     EmptyString;
     "Here is an original documentation article:";
     EmptyString;
     article_text;
     EmptyString;
     "Based on the following suggestions, please rewrite the article to improve readability and style while keeping the original meaning intact:";
     EmptyString;
     suggestions_text;
     EmptyString;
     "Please output only the revised article text.";
     EmptyString].

Definition bullet : string := nl ++ "- ".
Definition no_suggestions : string := "No suggestions provided.".

(** [suggestions.get('readability', {}).get('suggestions', [])] *)
Definition readability_suggestions (suggestions : json) : result json :=
  let? readability := get_method suggestions "readability" (JDict []) in
  get_method readability "suggestions" (JList []).

(** The [isinstance] cascade on [style_guidelines]. *)
Definition style_suggestions (suggestions : json) : result json :=
  let? style_guidelines :=
    get_method suggestions "style_guidelines" (JList []) in
  match style_guidelines with
  | JDict d => Ok (dict_get d "suggestions" (JList []))
  | JList _ => Ok style_guidelines
  | _ => Ok (JList [])
  end.

(** The local [combined_suggestions]. *)
Definition combined_suggestions (suggestions : json) : result json :=
  let? rs := readability_suggestions suggestions in
  let? ss := style_suggestions suggestions in
  Py.add rs ss.

(** The local [suggestions_text], a conditional expression on the truth
    value of the combined suggestions. *)
Definition suggestions_text (combined : json) : result string :=
  if truthy combined
  then let? joined := join bullet combined in Ok (bullet ++ joined)
  else Ok no_suggestions.

Definition build_revision_prompt (article_text : string) (suggestions : json)
  : result string :=
  let? combined := combined_suggestions suggestions in
  let? text := suggestions_text combined in
  Ok (revision_template article_text text).

(** ** The run: browser, subprocess, console *)

Inductive event : Type :=
| Print (text : string)
| PlaywrightStart
| BrowserLaunch
| PageGoto (url : string)
| WaitForSelector (selector : string)
| PageContent
| BrowserClose
| PlaywrightStop
| OllamaRun (prompt : string).

(** What the collaborators outside the source answer in one run. *)
Record world : Type := mk_world {
  (** [page.goto(url, timeout=60000)] raising, if it does *)
  goto_raises : option exn;
  (** [page.wait_for_selector(..., timeout=60000)] raising, if it does *)
  wait_raises : option exn;
  (** [soup.title], and inside it [soup.title.string] *)
  soup_title : option (option string);
  (** [soup.select_one(...)], as the text that
      [get_text(separator="\n", strip=True)] gives for it *)
  article_div : option string;
  (** the [n]-th [ollama run] subprocess on a prompt: return code, standard
      output, standard error *)
  ollama_run : nat -> string -> Z * string * string;
  (** [json.loads] *)
  json_loads : string -> result json;
  (** [json.dumps(_, indent=2)] *)
  json_dumps : json -> string
}.

Record run_state : Type := mk_state {
  trace : list event;
  ollama_calls : nat
}.

Definition initial_state : run_state := mk_state [] 0.

(** State and exception monad of a run. *)
Definition M (A : Type) : Type := run_state -> run_state * result A.

Definition ret {A} (a : A) : M A := fun st => (st, Ok a).

Definition raise {A} (e : exn) : M A := fun st => (st, Raise e).

Definition bind {A B} (m : M A) (k : A -> M B) : M B :=
  fun st =>
    match m st with
    | (st', Ok a) => k a st'
    | (st', Raise e) => (st', Raise e)
    end.

Definition lift {A} (r : result A) : M A := fun st => (st, r).

Definition emit (e : event) : M unit :=
  fun st => (mk_state (trace st ++ [e]) (ollama_calls st), Ok tt).

Definition print (text : string) : M unit := emit (Print text).

(** [try: body except Exception as e: handler(e)] *)
Definition try_except {A} (body : M A) (handler : exn -> M A) : M A :=
  fun st =>
    match body st with
    | (st', Ok a) => (st', Ok a)
    | (st', Raise e) => handler e st'
    end.

(** [with sync_playwright() as p: body]: the exit of the block runs on
    return and on raise. *)
Definition with_playwright {A} (body : M A) : M A :=
  fun st =>
    match bind (emit PlaywrightStart) (fun _ => body) st with
    | (st', r) => (mk_state (trace st' ++ [PlaywrightStop]) (ollama_calls st'), r)
    end.

Notation "x <- m ;; k" := (bind m (fun x => k))
  (at level 61, m at next level, right associativity).
Notation "m ;;; k" := (bind m (fun _ => k))
  (at level 61, right associativity).

Definition selector : string := "div.article__body.markdown".

Section Run.

Variable w : world.

Definition extract_article_with_playwright (url : string)
  : M (option string * option string) :=
  with_playwright
    (emit BrowserLaunch ;;;
     print "Opening browser. Please solve the CAPTCHA manually if prompted..." ;;;
     emit (PageGoto url) ;;;
     match goto_raises w with
     | Some e => raise e
     | None =>
         emit (WaitForSelector selector) ;;;
         match wait_raises w with
         | Some _ =>
             print "Timeout waiting for article content. Try solving the CAPTCHA and re-run." ;;;
             emit BrowserClose ;;;
             ret (None, None)
         | None =>
             emit PageContent ;;;
             title <- match soup_title w with
                      | None => ret "No title found"
                      | Some None => raise (no_attribute JNull "strip")
                      | Some (Some s) => ret (strip s)
                      end ;;
             emit BrowserClose ;;;
             match article_div w with
             | None =>
                 raise (mk_exn Exception_ "Article content not found after CAPTCHA.")
             | Some text => ret (Some title, Some text)
             end
         end
     end).

Definition query_ollama (prompt : string) : M string :=
  fun st =>
    let '(returncode, stdout, stderr) := ollama_run w (ollama_calls st) prompt in
    let st' := mk_state (trace st ++ [OllamaRun prompt]) (S (ollama_calls st)) in
    if (returncode =? 0)%Z
    then (st', Ok (strip stdout))
    else (st', Raise (mk_exn Exception_ ("Ollama error: " ++ strip stderr))).

Definition url : string :=
  "https://help.moengage.com/hc/en-us/articles/18060739634580-Understanding-Count-Differences-in-Behavior-and-Funnel-Analyses".

(** The body of the [try] block of the entry point. *)
Definition try_body (article analysis_response : string) : M unit :=
  json_str <- lift (extract_json analysis_response) ;;
  raw_analysis_json <- lift (json_loads w json_str) ;;
  analysis_json <- lift (normalize_analysis_json raw_analysis_json) ;;
  print (nl ++ "Analysis Result (parsed JSON):" ++ nl) ;;;
  print (json_dumps w analysis_json) ;;;
  print (nl ++ "Generating revised article based on readability and style suggestions..." ++ nl) ;;;
  revision_prompt <- lift (build_revision_prompt article analysis_json) ;;
  revised_article <- query_ollama revision_prompt ;;
  print (nl ++ "Revised Article:" ++ nl) ;;;
  print revised_article.

(** The two [except] clauses, tried in order. *)
Definition handler (analysis_response : string) (e : exn) : M unit :=
  if is_value_error e
  then
    print "Failed to parse JSON from analysis response. Raw output:" ;;;
    print analysis_response ;;;
    print ("Parsing error: " ++ exn_str e)
  else print ("Error during processing: " ++ exn_str e).

(** The truth value of a [str] or [None]. *)
Definition truthy_str (o : option string) : bool :=
  match o with
  | Some s => non_empty s
  | None => false
  end.

(** The [str] behind a value that the guard has found true. *)
Definition the_str (o : option string) : string :=
  match o with
  | Some s => s
  | None => EmptyString
  end.

(** The block guarded by [if title and article:]. *)
Definition pipeline (title article : string) : M unit :=
  print ("Title: " ++ title) ;;;
  print (nl ++ "Article Preview:" ++ nl ++ " " ++ take 1000 article) ;;;
  print (nl ++ "Sending article to Ollama for analysis...") ;;;
  analysis_response <- query_ollama (build_analysis_prompt title article) ;;
  try_except (try_body article analysis_response) (handler analysis_response).

(** The block under [if __name__ == "__main__":]. *)
Definition main : M unit :=
  extracted <- extract_article_with_playwright url ;;
  let '(title, article) := extracted in
  if truthy_str title && truthy_str article
  then pipeline (the_str title) (the_str article)
  else ret tt.

(** How the process ends: the interpreter leaves normally, or an exception
    reaches the top of the stack and is reported as a traceback. *)
Inductive outcome : Type :=
| ExitedNormally
| UnhandledException (e : exn).

Definition run : list event * outcome :=
  match main initial_state with
  | (st, Ok _) => (trace st, ExitedNormally)
  | (st, Raise e) => (trace st, UnhandledException e)
  end.

End Run.

(** ** Vocabulary of the properties *)

Definition aspect_keys : list string :=
  ["readability"; "structure"; "completeness"; "style_guidelines"].

(** A flat-shaped raw object: a plain string at each of the four keys. *)
Definition flat_shaped (d : dict) : Prop :=
  forall k, In k aspect_keys -> exists s, dict_lookup k d = Some (JStr s).

(** An AspectFeedback record with a non-empty assessment and a non-empty
    sequence of strings as suggestions. *)
Definition populated_feedback (fb : json) : Prop :=
  exists a xs,
    field "assessment" fb = Some (JStr a) /\ a <> EmptyString /\
    field "suggestions" fb = Some (JList xs) /\ xs <> [] /\
    forallb is_str xs = true.

(** The record [wrap] builds for a key whose raw value is [v]. *)
Definition wrapped (key : string) (v : json) : json :=
  JDict [("assessment", v);
         ("suggestions",
          JList [JStr ("Improve " ++ key ++ " clarity");
                 JStr ("Use simpler structure for " ++ key)])].

Definition flat_input : dict :=
  [("readability", JStr EmptyString); ("structure", JStr "ok");
   ("completeness", JStr "ok"); ("style_guidelines", JStr "concise")].

Definition mixed_input : dict :=
  [("readability", wrapped "readability" (JStr "clear"));
   ("completeness", JStr "thin")].

Definition lbrace : ascii := "{"%char.
Definition rbrace : ascii := "}"%char.

(** A span exists: some ['{'] with a ['}'] somewhere after it. *)
Definition has_span (text : string) : Prop :=
  exists i j, i < j /\ get i text = Some lbrace /\ get j text = Some rbrace.

(** [i] is the index of the first [c] of [s], [j] that of the last. *)
Definition first_at (c : ascii) (s : string) (i : nat) : Prop :=
  get i s = Some c /\ forall k, k < i -> get k s <> Some c.

Definition last_at (c : ascii) (s : string) (j : nat) : Prop :=
  get j s = Some c /\ forall k, j < k -> get k s <> Some c.

Definition brace_tail : list re_atom := [RDotStar; RLit rbrace].


(** [needle] occurs in [hay]. *)
Definition occurs_in (needle hay : string) : Prop :=
  exists before after, hay = before ++ needle ++ after.

(** What the bullet rendering gives for a sequence of strings. *)
Definition bullet_list (items : list string) : string :=
  bullet ++ String.concat bullet items.

(** The value at [style_guidelines] contributes no suggestion: it is
    absent, an empty bare list, a record whose suggestions are empty, or of
    a type that is neither list nor record. *)
Definition empty_style (style_guidelines : option json) : Prop :=
  match style_guidelines with
  | Some (JList ss) => ss = []
  | Some (JDict sd) => dict_get sd "suggestions" (JList []) = JList []
  | _ => True
  end.

(** The fixed text of the revision prompt around its two holes. *)
Definition template_head : string :=
  unlines [EmptyString;
           "You are a skilled technical writer assistant.";
           EmptyString;
           "Here is an original documentation article:";
           EmptyString;
           EmptyString].

Definition template_middle : string :=
  unlines [EmptyString;
           EmptyString;
           "Based on the following suggestions, please rewrite the article to improve readability and style while keeping the original meaning intact:";
           EmptyString;
           EmptyString].

Definition template_foot : string :=
  unlines [EmptyString;
           EmptyString;
           "Please output only the revised article text.";
           EmptyString].

(** *** Runs *)

Definition opening_message : string :=
  "Opening browser. Please solve the CAPTCHA manually if prompted...".

Definition timeout_message : string :=
  "Timeout waiting for article content. Try solving the CAPTCHA and re-run.".

(** The events of an extraction whose wait for the selector times out. *)
Definition timeout_trace : list event :=
  [PlaywrightStart; BrowserLaunch; Print opening_message; PageGoto url;
   WaitForSelector selector; Print timeout_message; BrowserClose;
   PlaywrightStop].

(** The events of an extraction that gets past the wait and the title. *)
Definition extracted_trace : list event :=
  [PlaywrightStart; BrowserLaunch; Print opening_message; PageGoto url;
   WaitForSelector selector; PageContent; BrowserClose; PlaywrightStop].

Definition content_missing : exn :=
  mk_exn Exception_ "Article content not found after CAPTCHA.".

(** [ModelInvocationError]: the subprocess left with a non-zero status. *)
Definition ollama_error (stderr : string) : exn :=
  mk_exn Exception_ ("Ollama error: " ++ strip stderr).

(** The prompts of the model invocations of a trace, in order. *)
Fixpoint model_invocations (tr : list event) : list string :=
  match tr with
  | [] => []
  | OllamaRun prompt :: tr' => prompt :: model_invocations tr'
  | _ :: tr' => model_invocations tr'
  end.

(** What the guarded block does up to and including the Analyzer's model
    invocation. *)
Definition analysis_events (title article : string) : list event :=
  [Print ("Title: " ++ title);
   Print (nl ++ "Article Preview:" ++ nl ++ " " ++ take 1000 article);
   Print (nl ++ "Sending article to Ollama for analysis...");
   OllamaRun (build_analysis_prompt title article)].

Definition analysed (st : run_state) (title article : string) : run_state :=
  mk_state (trace st ++ analysis_events title article) (S (ollama_calls st)).

(** What the [try] block prints before it builds the revision prompt. *)
Definition report_events (w : world) (analysis_json : json) : list event :=
  [Print (nl ++ "Analysis Result (parsed JSON):" ++ nl);
   Print (json_dumps w analysis_json);
   Print (nl ++ "Generating revised article based on readability and style suggestions..." ++ nl)].

(** A computation only adds events to the trace. *)
Definition grows {A} (m : M A) : Prop :=
  forall st, exists evs, trace (fst (m st)) = (trace st ++ evs)%list.

(** The title of a page: the stripped text of the title element, or the
    placeholder when there is no such element. *)
Definition page_title (w : world) : string :=
  match soup_title w with
  | Some (Some s) => strip s
  | _ => "No title found"
  end.

(** *** Sample worlds *)

Definition decode_error : exn :=
  mk_exn JSONDecodeError "Expecting value: line 1 column 2 (char 1)".

Definition flat_analysis : json :=
  JDict [("readability", JStr "clear"); ("structure", JStr "clear");
         ("completeness", JStr "clear"); ("style_guidelines", JList [])].

(** A page with title and body; the model answers [analysis] to the first
    invocation and leaves the second with status [status2]. *)
Definition sample_world (title : option (option string))
  (body : option string) (status1 : Z) (analysis : string)
  (loads : string -> result json) (status2 : Z) : world :=
  mk_world None None title body
    (fun n _ => match n with
                | 0 => (status1, analysis, "model unavailable")
                | _ => (status2, "Revised.", "model unavailable")
                end)
    loads
    (fun _ => "{...}").

Definition timeout_world : world :=
  mk_world None (Some (mk_exn (OtherError "TimeoutError") "Timeout 60000ms exceeded."))
    None None (fun _ _ => (0%Z, EmptyString, EmptyString))
    (fun _ => Raise decode_error) (fun _ => EmptyString).

Definition missing_container_world : world :=
  sample_world (Some (Some "Sample Title")) None 0 "{}"
    (fun _ => Ok flat_analysis) 0.

Definition analyzer_down_world : world :=
  sample_world (Some (Some "Sample Title")) (Some "Para one.") 1 EmptyString
    (fun _ => Ok flat_analysis) 0.

Definition reviser_down_world : world :=
  sample_world (Some (Some "Sample Title")) (Some "Para one.") 0 "{}"
    (fun _ => Ok flat_analysis) 1.

Definition no_json_world : world :=
  sample_world (Some (Some "Sample Title")) (Some "Para one.") 0
    "I cannot answer." (fun _ => Ok flat_analysis) 0.

Definition bad_json_world : world :=
  sample_world (Some (Some "Sample Title")) (Some "Para one.") 0
    "{oops}" (fun _ => Raise decode_error) 0.

Definition empty_body_world : world :=
  sample_world None (Some EmptyString) 0 "{}" (fun _ => Ok flat_analysis) 0.

Definition blank_title_world : world :=
  sample_world (Some (Some " ")) (Some "Para one.") 0 "{}"
    (fun _ => Ok flat_analysis) 0.

(** *** Further vocabulary *)

(** The character [c] does not occur in [s]. *)
Definition lacks (c : ascii) (s : string) : Prop :=
  forall k, get k s <> Some c.

(** A text that opens with ['{'] and closes with ['}']. *)
Definition braced (middle : string) : string :=
  String lbrace (middle ++ String rbrace EmptyString).

(** Every character of [s] is white space. *)
Fixpoint all_space (s : string) : bool :=
  match s with
  | EmptyString => true
  | String c s' => is_space c && all_space s'
  end.



(** What the [try] block adds once the Reviser has answered. *)
Definition revision_events (prompt revised : string) : list event :=
  [OllamaRun prompt; Print (nl ++ "Revised Article:" ++ nl); Print revised].
(** ** Properties of [normalize_analysis_json] *)

Lemma wrap_present (d : dict) (key : string) (v : json) :
  dict_lookup key d = Some v -> wrap d key = Ok (wrapped key v).
Proof.
  intros H. unfold wrap, dict_getitem. rewrite H. reflexivity.
Qed.

Lemma wrap_absent (d : dict) (key : string) :
  dict_lookup key d = None ->
  wrap d key = Raise (mk_exn KeyError ("'" ++ key ++ "'")).
Proof.
  intros H. unfold wrap, dict_getitem. rewrite H. reflexivity.
Qed.

(** The flat branch, when the three wrapped keys are present: the object it
    builds. *)
Lemma normalize_flat_exact (d : dict) (r : string) (s c : json) :
  dict_lookup "readability" d = Some (JStr r) ->
  dict_lookup "structure" d = Some s ->
  dict_lookup "completeness" d = Some c ->
  normalize_analysis_json (JDict d) =
  Ok (JDict [("readability", wrapped "readability" (JStr r));
             ("structure", wrapped "structure" s);
             ("completeness", wrapped "completeness" c);
             ("style_guidelines",
              JDict [("assessment", JStr "Review");
                     ("suggestions",
                      dict_get d "style_guidelines" (JList []))])]).
Proof.
  intros Hr Hs Hc. unfold normalize_analysis_json. rewrite Hr.
  rewrite (wrap_present _ _ _ Hr), (wrap_present _ _ _ Hs),
    (wrap_present _ _ _ Hc).
  reflexivity.
Qed.

(** C1, as stated, fails: on the flat-shaped object [flat_input] the record
    at [readability] has an empty assessment, and the record at
    [style_guidelines] has the constant assessment ["Review"] and the raw
    string, not a sequence of strings, as its suggestions. *)
Lemma normalize_flat_counterexample :
  flat_shaped flat_input /\
  normalize_analysis_json (JDict flat_input) =
    Ok (JDict [("readability", wrapped "readability" (JStr EmptyString));
               ("structure", wrapped "structure" (JStr "ok"));
               ("completeness", wrapped "completeness" (JStr "ok"));
               ("style_guidelines",
                JDict [("assessment", JStr "Review");
                       ("suggestions", JStr "concise")])]) /\
  ~ (forall res, normalize_analysis_json (JDict flat_input) = Ok res ->
     forall k, In k aspect_keys ->
     exists fb, field k res = Some fb /\ populated_feedback fb).
Proof.
  split; [|split].
  - intros k Hk. simpl in Hk.
    destruct Hk as [<-|[<-|[<-|[<-|[]]]]]; eexists; reflexivity.
  - reflexivity.
  - intros H.
    destruct (H _ eq_refl "readability" (or_introl eq_refl))
      as (fb & Hfb & a & xs & Ha & Hne & _).
    cbn in Hfb. injection Hfb as <-. cbn in Ha.
    injection Ha as <-. apply Hne. reflexivity.
Qed.

(** C1 (amended): for a flat-shaped raw object, normalization returns an
    object in which [readability], [structure] and [completeness] each map
    to a record whose assessment is the original string at that key and
    whose suggestions are the two generated strings naming the key, and in
    which [style_guidelines] maps to a record with both fields present, the
    assessment being the constant ["Review"]. *)
Theorem normalize_flat_shape (d : dict) :
  flat_shaped d ->
  exists res, normalize_analysis_json (JDict d) = Ok res /\
    (forall k, In k ["readability"; "structure"; "completeness"] ->
       exists s, dict_lookup k d = Some (JStr s) /\
         field k res =
           Some (JDict [("assessment", JStr s);
                        ("suggestions",
                         JList [JStr ("Improve " ++ k ++ " clarity");
                                JStr ("Use simpler structure for " ++ k)])])) /\
    (exists sg, field "style_guidelines" res =
       Some (JDict [("assessment", JStr "Review"); ("suggestions", sg)])).
Proof.
  intros Hflat.
  destruct (Hflat "readability") as [r Hr]; [simpl; tauto|].
  destruct (Hflat "structure") as [s Hs]; [simpl; tauto|].
  destruct (Hflat "completeness") as [c Hc]; [simpl; tauto|].
  eexists. split; [apply (normalize_flat_exact d r _ _ Hr Hs Hc)|]. split.
  - intros k Hk. simpl in Hk.
    destruct Hk as [<-|[<-|[<-|[]]]]; eexists; (split; [eassumption|reflexivity]).
  - eexists. reflexivity.
Qed.

Lemma normalize_flat_shape_witness :
  exists res, normalize_analysis_json (JDict flat_input) = Ok res /\
    (forall k, In k ["readability"; "structure"; "completeness"] ->
       exists s, dict_lookup k flat_input = Some (JStr s) /\
         field k res =
           Some (JDict [("assessment", JStr s);
                        ("suggestions",
                         JList [JStr ("Improve " ++ k ++ " clarity");
                                JStr ("Use simpler structure for " ++ k)])])) /\
    (exists sg, field "style_guidelines" res =
       Some (JDict [("assessment", JStr "Review"); ("suggestions", sg)])).
Proof.
  apply (normalize_flat_shape flat_input).
  intros k Hk. simpl in Hk.
  destruct Hk as [<-|[<-|[<-|[<-|[]]]]]; eexists; reflexivity.
Defined.

(** C4: when the value at [readability] is not a plain string (a nested
    record, any other value, or no value at all), normalization returns the
    object it was given, whatever the other keys hold. *)
Theorem normalize_nested_identity (d : dict) :
  (forall s, dict_lookup "readability" d <> Some (JStr s)) ->
  normalize_analysis_json (JDict d) = Ok (JDict d).
Proof.
  intros H. unfold normalize_analysis_json.
  destruct (dict_lookup "readability" d) as [[| | | |s| |]|] eqn:E;
    try reflexivity.
  exfalso. apply (H s). reflexivity.
Qed.

Lemma normalize_nested_identity_witness :
  normalize_analysis_json (JDict mixed_input) = Ok (JDict mixed_input) /\
  normalize_analysis_json (JDict [("structure", JStr "flat")]) =
    Ok (JDict [("structure", JStr "flat")]).
Proof.
  split; apply normalize_nested_identity; intros s; cbn; discriminate.
Defined.

(** C9: in the flat branch a missing [structure] or [completeness] key makes
    normalization raise [KeyError] for that key, [structure] first; a
    missing [style_guidelines] raises nothing and gives an empty
    suggestions list. *)
Theorem normalize_flat_missing_key (d : dict) (r : string) :
  dict_lookup "readability" d = Some (JStr r) ->
  (dict_lookup "structure" d = None ->
   normalize_analysis_json (JDict d) =
     Raise (mk_exn KeyError "'structure'")) /\
  (forall s, dict_lookup "structure" d = Some s ->
   dict_lookup "completeness" d = None ->
   normalize_analysis_json (JDict d) =
     Raise (mk_exn KeyError "'completeness'")) /\
  (forall s c, dict_lookup "structure" d = Some s ->
   dict_lookup "completeness" d = Some c ->
   dict_lookup "style_guidelines" d = None ->
   exists res, normalize_analysis_json (JDict d) = Ok res /\
     field "style_guidelines" res =
       Some (JDict [("assessment", JStr "Review");
                    ("suggestions", JList [])])).
Proof.
  intros Hr. split; [|split].
  - intros Hs. unfold normalize_analysis_json. rewrite Hr.
    rewrite (wrap_present _ _ _ Hr), (wrap_absent _ _ Hs). reflexivity.
  - intros s Hs Hc. unfold normalize_analysis_json. rewrite Hr.
    rewrite (wrap_present _ _ _ Hr), (wrap_present _ _ _ Hs),
      (wrap_absent _ _ Hc).
    reflexivity.
  - intros s c Hs Hc Hg. eexists.
    split; [apply (normalize_flat_exact d r s c Hr Hs Hc)|].
    unfold dict_get. rewrite Hg. reflexivity.
Qed.

Lemma normalize_flat_missing_key_witness :
  normalize_analysis_json (JDict [("readability", JStr "clear")]) =
    Raise (mk_exn KeyError "'structure'") /\
  normalize_analysis_json
    (JDict [("readability", JStr "clear"); ("structure", JStr "clear")]) =
    Raise (mk_exn KeyError "'completeness'").
Proof.
  split.
  - apply (normalize_flat_missing_key [("readability", JStr "clear")] "clear");
      reflexivity.
  - apply (normalize_flat_missing_key
             [("readability", JStr "clear"); ("structure", JStr "clear")]
             "clear" eq_refl) with (s := JStr "clear"); reflexivity.
Defined.

(** ** Properties of [extract_json] *)

Lemma occurs_dec (c : ascii) (s : string) :
  (exists k, get k s = Some c) \/ (forall k, get k s <> Some c).
Proof.
  induction s as [|x s IH].
  - right. intros k. destruct k; discriminate.
  - destruct (Ascii.eqb_spec x c) as [->|Hx].
    + left. exists 0. reflexivity.
    + destruct IH as [[k Hk]|Hno].
      * left. exists (S k). exact Hk.
      * right. intros [|k]; cbn.
        -- intros [= E]. contradiction.
        -- apply Hno.
Qed.

Lemma first_exists (c : ascii) (s : string) :
  forall i0, get i0 s = Some c -> exists i, i <= i0 /\ first_at c s i.
Proof.
  induction s as [|x s IH]; intros i0 H0.
  - destruct i0; discriminate.
  - destruct (Ascii.eqb_spec x c) as [->|Hx].
    + exists 0. repeat split; [lia|]. intros k Hk. lia.
    + destruct i0 as [|i0]; cbn in H0.
      * injection H0 as E. contradiction.
      * destruct (IH _ H0) as (i & Hle & Hi & Hmin).
        exists (S i). repeat split; [lia|exact Hi|].
        intros [|k] Hk; cbn.
        -- intros [= E]. contradiction.
        -- apply Hmin. lia.
Qed.

Lemma last_exists (c : ascii) (s : string) :
  forall j0, get j0 s = Some c -> exists j, j0 <= j /\ last_at c s j.
Proof.
  induction s as [|x s IH]; intros j0 H0.
  - destruct j0; discriminate.
  - destruct j0 as [|j0]; cbn in H0.
    + destruct (occurs_dec c s) as [[k Hk]|Hno].
      * destruct (IH _ Hk) as (j & _ & Hj & Hmax).
        exists (S j). repeat split; [lia|exact Hj|].
        intros [|k'] Hk'; [lia|]. cbn. apply Hmax. lia.
      * exists 0. repeat split; [lia|exact H0|].
        intros [|k'] Hk'; [lia|]. cbn. apply Hno.
    + destruct (IH _ H0) as (j & Hle & Hj & Hmax).
      exists (S j). repeat split; [lia|exact Hj|].
      intros [|k'] Hk'; [lia|]. cbn. apply Hmax. lia.
Qed.

(** [.*\}] finds nothing in a text without ['}']. *)
Lemma tail_no_rbrace (s : string) :
  (forall k, get k s <> Some rbrace) -> re_match brace_tail s = None.
Proof.
  induction s as [|x s IH]; intros Hno.
  - reflexivity.
  - change (re_match brace_tail (String x s))
      with (match re_match brace_tail s with
            | Some m => Some (String x m)
            | None => re_match [RLit rbrace] (String x s)
            end).
    rewrite IH by (intros k; apply (Hno (S k))).
    cbn. destruct (Ascii.eqb_spec x rbrace) as [->|Hx]; [|reflexivity].
    exfalso. apply (Hno 0). reflexivity.
Qed.

(** [.*\}] runs to the last ['}']. *)
Lemma tail_to_last (s : string) :
  forall j, last_at rbrace s j ->
  re_match brace_tail s = Some (substring 0 (S j) s).
Proof.
  induction s as [|x s IH]; intros j [Hj Hmax].
  - destruct j; discriminate.
  - change (re_match brace_tail (String x s))
      with (match re_match brace_tail s with
            | Some m => Some (String x m)
            | None => re_match [RLit rbrace] (String x s)
            end).
    destruct j as [|j]; cbn in Hj.
    + rewrite tail_no_rbrace
        by (intros k; apply (Hmax (S k)); lia).
      injection Hj as ->. cbn. destruct s; reflexivity.
    + rewrite (IH j).
      * reflexivity.
      * split; [exact Hj|]. intros k Hk. apply (Hmax (S k)). lia.
Qed.

Lemma match_at_lbrace (x : ascii) (s : string) :
  re_match json_object_re (String x s) =
  if Ascii.eqb x lbrace then option_map (String x) (re_match brace_tail s)
  else None.
Proof. reflexivity. Qed.

(** The search returns the text from the first ['{'] to the last ['}']. *)
Lemma search_first_to_last (s : string) :
  forall i j, first_at lbrace s i -> last_at rbrace s j -> i < j ->
  re_search json_object_re s = Some (substring i (S j - i) s).
Proof.
  induction s as [|x s IH]; intros i j [Hi Hmin] [Hj Hmax] Hlt.
  - destruct i; discriminate.
  - destruct j as [|j]; [lia|].
    unfold re_search; fold re_search. rewrite match_at_lbrace.
    destruct i as [|i]; cbn in Hi.
    + injection Hi as ->. cbn [Ascii.eqb]. rewrite Ascii.eqb_refl.
      rewrite (tail_to_last s j).
      * reflexivity.
      * split; [exact Hj|]. intros k Hk. apply (Hmax (S k)). lia.
    + destruct (Ascii.eqb_spec x lbrace) as [->|Hx].
      * exfalso. apply (Hmin 0); [lia|reflexivity].
      * rewrite (IH i j).
        -- reflexivity.
        -- split; [exact Hi|]. intros k Hk. apply (Hmin (S k)). lia.
        -- split; [exact Hj|]. intros k Hk. apply (Hmax (S k)). lia.
        -- lia.
Qed.

(** Without a span the search finds nothing. *)
Lemma search_no_span (s : string) :
  ~ has_span s -> re_search json_object_re s = None.
Proof.
  induction s as [|x s IH]; intros Hno.
  - reflexivity.
  - assert (Hs : ~ has_span s).
    { intros (i & j & Hlt & Hi & Hj). apply Hno.
      exists (S i), (S j). repeat split; [lia|exact Hi|exact Hj]. }
    unfold re_search; fold re_search. rewrite match_at_lbrace.
    destruct (Ascii.eqb_spec x lbrace) as [->|Hx].
    + rewrite tail_no_rbrace.
      * cbn. apply IH, Hs.
      * intros k Hk. apply Hno. exists 0, (S k).
        repeat split; [lia|exact Hk].
    + apply IH, Hs.
Qed.

(** C2: on a text with a ['{'] followed later by a ['}'], [extract_json]
    returns the substring from the first ['{'] of the text to its last
    ['}'], as on the example of the specification; on a text with no such
    span it raises [ValueError]. *)
Theorem extract_json_first_to_last :
  (forall text, has_span text ->
     exists i j, i < j /\ first_at lbrace text i /\ last_at rbrace text j /\
       extract_json text = Ok (substring i (S j - i) text)) /\
  extract_json example_text = Ok example_span /\
  (forall text, ~ has_span text ->
     extract_json text =
       Raise (mk_exn ValueError "No JSON object found in text")).
Proof.
  split; [|split].
  - intros text (i0 & j0 & Hlt & Hi0 & Hj0).
    destruct (first_exists _ _ _ Hi0) as (i & Hile & Hi).
    destruct (last_exists _ _ _ Hj0) as (j & Hjle & Hj).
    exists i, j. repeat split; try apply Hi; try apply Hj; [lia|].
    unfold extract_json.
    rewrite (search_first_to_last text i j Hi Hj) by lia. reflexivity.
  - reflexivity.
  - intros text Hno. unfold extract_json.
    rewrite (search_no_span _ Hno). reflexivity.
Qed.

Lemma extract_json_first_to_last_witness :
  (exists i j, i < j /\ first_at lbrace example_text i /\
     last_at rbrace example_text j /\
     extract_json example_text = Ok (substring i (S j - i) example_text)) /\
  extract_json "}{" =
    Raise (mk_exn ValueError "No JSON object found in text").
Proof.
  split.
  - apply (proj1 extract_json_first_to_last example_text).
    exists 20, 34. split; [lia|split; reflexivity].
  - apply (proj2 (proj2 extract_json_first_to_last) "}{").
    intros (i & j & Hlt & Hi & Hj).
    destruct i as [|[|i]]; destruct j as [|[|j]];
      cbn in Hi, Hj; try discriminate; lia.
Defined.

(** ** Properties of [build_revision_prompt] *)

Lemma append_assoc (a b c : string) : (a ++ b) ++ c = a ++ (b ++ c).
Proof.
  induction a as [|x a IH]; cbn; [reflexivity|]. rewrite IH. reflexivity.
Qed.

Lemma str_items_map (items : list string) :
  forall i, str_items i (map JStr items) = Ok items.
Proof.
  induction items as [|s items IH]; intros i; cbn; [reflexivity|].
  rewrite IH. reflexivity.
Qed.

(** Both halves being lists, the combined suggestions are their
    concatenation. *)
Lemma combined_lists (analysis : json) (rs ss : list json) :
  readability_suggestions analysis = Ok (JList rs) ->
  style_suggestions analysis = Ok (JList ss) ->
  combined_suggestions analysis = Ok (JList (rs ++ ss)).
Proof.
  intros Hr Hs. unfold combined_suggestions. rewrite Hr, Hs. reflexivity.
Qed.

Lemma style_bare_list (d : dict) (ss : list json) :
  dict_lookup "style_guidelines" d = Some (JList ss) ->
  style_suggestions (JDict d) = Ok (JList ss).
Proof.
  intros H. unfold style_suggestions. cbn. unfold dict_get. rewrite H.
  reflexivity.
Qed.

Lemma style_record (d sd : dict) (v : json) :
  dict_lookup "style_guidelines" d = Some (JDict sd) ->
  dict_lookup "suggestions" sd = Some v ->
  style_suggestions (JDict d) = Ok v.
Proof.
  intros H Hv. unfold style_suggestions. cbn. unfold dict_get.
  rewrite H, Hv. reflexivity.
Qed.

Lemma style_empty (d : dict) :
  empty_style (dict_lookup "style_guidelines" d) ->
  style_suggestions (JDict d) = Ok (JList []).
Proof.
  intros Hs.
  destruct (dict_lookup "style_guidelines" d) as [[| | | | |ss|sd]|] eqn:E;
    unfold style_suggestions, get_method, rbind, dict_get;
    unfold empty_style, dict_get in Hs; rewrite E; try reflexivity.
  - subst ss. reflexivity.
  - rewrite Hs. reflexivity.
Qed.

(** A non-empty combined list of strings is rendered as bullets. *)
Lemma prompt_of_bullets (article : string) (analysis : json)
  (items : list string) :
  combined_suggestions analysis = Ok (JList (map JStr items)) ->
  items <> [] ->
  build_revision_prompt article analysis =
    Ok (revision_template article (bullet_list items)).
Proof.
  intros Hc Hne. unfold build_revision_prompt. rewrite Hc. cbn [rbind].
  unfold suggestions_text.
  assert (Ht : truthy (JList (map JStr items)) = true)
    by (destruct items; [contradiction|reflexivity]).
  rewrite Ht. unfold join. rewrite str_items_map. reflexivity.
Qed.

(** C5: the combined suggestions are the readability suggestions followed
    by the style suggestions, the latter read off a bare list or off the
    [suggestions] field of a record; with the bare list [tip1, tip2] the
    prompt lists both tips after the readability suggestions, with the
    record holding [tip3] it lists that tip. *)
Theorem revision_suggestions_by_type (article : string) (d : dict)
  (rs : list json) (strs : list string) :
  readability_suggestions (JDict d) = Ok (JList rs) ->
  (forall ss, dict_lookup "style_guidelines" d = Some (JList ss) ->
     combined_suggestions (JDict d) = Ok (JList (rs ++ ss))) /\
  (forall sd ss, dict_lookup "style_guidelines" d = Some (JDict sd) ->
     dict_lookup "suggestions" sd = Some (JList ss) ->
     combined_suggestions (JDict d) = Ok (JList (rs ++ ss))) /\
  (rs = map JStr strs ->
   dict_lookup "style_guidelines" d = Some (JList [JStr "tip1"; JStr "tip2"]) ->
   build_revision_prompt article (JDict d) =
     Ok (revision_template article (bullet_list (strs ++ ["tip1"; "tip2"])))) /\
  (rs = map JStr strs ->
   dict_lookup "style_guidelines" d =
     Some (JDict [("suggestions", JList [JStr "tip3"])]) ->
   build_revision_prompt article (JDict d) =
     Ok (revision_template article (bullet_list (strs ++ ["tip3"])))).
Proof.
  intros Hr. split; [|split; [|split]].
  - intros ss Hs. apply combined_lists; [exact Hr|].
    apply style_bare_list, Hs.
  - intros sd ss Hs Hsd. apply combined_lists; [exact Hr|].
    apply (style_record d sd _ Hs Hsd).
  - intros -> Hs. apply prompt_of_bullets.
    + rewrite map_app. apply combined_lists; [exact Hr|].
      apply style_bare_list, Hs.
    + destruct strs; discriminate.
  - intros -> Hs. apply prompt_of_bullets.
    + rewrite map_app. apply combined_lists; [exact Hr|].
      apply (style_record d _ _ Hs). reflexivity.
    + destruct strs; discriminate.
Qed.

Lemma revision_suggestions_by_type_witness :
  combined_suggestions
    (JDict [("readability", wrapped "readability" (JStr "clear"));
            ("style_guidelines", JList [JStr "tip1"; JStr "tip2"])]) =
  Ok (JList [JStr "Improve readability clarity";
             JStr "Use simpler structure for readability";
             JStr "tip1"; JStr "tip2"]) /\
  build_revision_prompt "Body."
    (JDict [("style_guidelines", JDict [("suggestions", JList [JStr "tip3"])])]) =
  Ok (revision_template "Body." (bullet_list ["tip3"])).
Proof.
  split.
  - apply (revision_suggestions_by_type EmptyString
             [("readability", wrapped "readability" (JStr "clear"));
              ("style_guidelines", JList [JStr "tip1"; JStr "tip2"])]
             [JStr "Improve readability clarity";
              JStr "Use simpler structure for readability"] []);
      reflexivity.
  - apply (revision_suggestions_by_type "Body."
             [("style_guidelines", JDict [("suggestions", JList [JStr "tip3"])])]
             [] []);
      reflexivity.
Defined.

Lemma revision_template_parts (article text : string) :
  revision_template article text =
  template_head ++ article ++ template_middle ++ text ++ template_foot.
Proof. reflexivity. Qed.

Lemma marker_in_template (article : string) :
  occurs_in no_suggestions (revision_template article no_suggestions).
Proof.
  exists (template_head ++ article ++ template_middle), template_foot.
  rewrite revision_template_parts, !append_assoc. reflexivity.
Qed.

(** C8: when the combined suggestion list is empty, the prompt is the
    template filled with the marker ["No suggestions provided."], which
    occurs in it, and not with the text an empty bullet list would render
    to.  The combined list is empty when the readability suggestions are
    empty and the style suggestions are too: an empty bare list, a record
    whose suggestions are empty, or a value of any other type. *)
Theorem revision_prompt_no_suggestions (article : string) :
  (forall analysis, combined_suggestions analysis = Ok (JList []) ->
     build_revision_prompt article analysis =
       Ok (revision_template article "No suggestions provided.")) /\
  occurs_in "No suggestions provided."
    (revision_template article "No suggestions provided.") /\
  "No suggestions provided." <> bullet_list [] /\
  (forall d, readability_suggestions (JDict d) = Ok (JList []) ->
     empty_style (dict_lookup "style_guidelines" d) ->
     combined_suggestions (JDict d) = Ok (JList [])).
Proof.
  split; [|split; [|split]].
  - intros analysis Hc. unfold build_revision_prompt. rewrite Hc.
    reflexivity.
  - apply marker_in_template.
  - discriminate.
  - intros d Hr Hs. unfold combined_suggestions. rewrite Hr.
    rewrite (style_empty d Hs). reflexivity.
Qed.

Lemma revision_prompt_no_suggestions_witness :
  build_revision_prompt "Body."
    (JDict [("readability", JDict [("suggestions", JList [])]);
            ("style_guidelines", JStr "terse")]) =
    Ok (revision_template "Body." "No suggestions provided.") /\
  combined_suggestions
    (JDict [("readability", JDict [("suggestions", JList [])]);
            ("style_guidelines", JDict [("suggestions", JList [])])]) =
    Ok (JList []).
Proof.
  split.
  - apply (proj1 (revision_prompt_no_suggestions "Body.")). reflexivity.
  - apply (proj2 (proj2 (proj2 (revision_prompt_no_suggestions "Body."))));
      reflexivity.
Defined.

(** A flat-shaped answer whose [style_guidelines] is a plain string is
    normalized to a record whose suggestions are that string, and the
    revision prompt cannot be built from it: a list and a string do not
    add. *)
Example flat_strings_break_revision :
  exists analysis,
    normalize_analysis_json (JDict flat_input) = Ok analysis /\
    build_revision_prompt "Body." analysis =
      Raise (cannot_concatenate "list" (JStr "concise")).
Proof. eexists. split; reflexivity. Qed.

(** ** Properties of the run *)

Lemma extract_timeout (w : world) (e : exn) :
  goto_raises w = None -> wait_raises w = Some e ->
  extract_article_with_playwright w url initial_state =
    (mk_state timeout_trace 0, Ok (None, None)).
Proof.
  intros Hg Hw. unfold extract_article_with_playwright.
  rewrite Hg, Hw. reflexivity.
Qed.

Lemma extract_missing (w : world) :
  goto_raises w = None -> wait_raises w = None ->
  soup_title w <> Some None -> article_div w = None ->
  extract_article_with_playwright w url initial_state =
    (mk_state extracted_trace 0, Raise content_missing).
Proof.
  intros Hg Hw Ht Hd. unfold extract_article_with_playwright.
  rewrite Hg, Hw, Hd.
  destruct (soup_title w) as [[s|]|]; [reflexivity|contradiction|reflexivity].
Qed.

Lemma extract_success (w : world) (body : string) :
  goto_raises w = None -> wait_raises w = None ->
  soup_title w <> Some None -> article_div w = Some body ->
  extract_article_with_playwright w url initial_state =
    (mk_state extracted_trace 0, Ok (Some (page_title w), Some body)).
Proof.
  intros Hg Hw Ht Hd. unfold extract_article_with_playwright, page_title.
  rewrite Hg, Hw, Hd.
  destruct (soup_title w) as [[s|]|]; [reflexivity|contradiction|reflexivity].
Qed.

(** *** From the extraction to the end of the process *)

Lemma run_extract_raises (w : world) (st : run_state) (e : exn) :
  extract_article_with_playwright w url initial_state = (st, Raise e) ->
  run w = (trace st, UnhandledException e).
Proof.
  intros H. unfold run, main, bind. rewrite H. reflexivity.
Qed.

Lemma run_skipped (w : world) (st : run_state) (title article : option string) :
  extract_article_with_playwright w url initial_state =
    (st, Ok (title, article)) ->
  truthy_str title && truthy_str article = false ->
  run w = (trace st, ExitedNormally).
Proof.
  intros H Hf. unfold run, main, bind. rewrite H, Hf. reflexivity.
Qed.

Lemma run_of_pipeline (w : world) (st : run_state) (title article : string) :
  extract_article_with_playwright w url initial_state =
    (st, Ok (Some title, Some article)) ->
  non_empty title = true -> non_empty article = true ->
  run w = match pipeline w title article st with
          | (st', Ok _) => (trace st', ExitedNormally)
          | (st', Raise e) => (trace st', UnhandledException e)
          end.
Proof.
  intros H Ht Ha. unfold run, main, bind. rewrite H.
  cbn [truthy_str the_str]. rewrite Ht, Ha. reflexivity.
Qed.

(** Unfolding of the monad's operations, leaving prompts and messages
    folded. *)
Ltac run_step :=
  unfold bind, print, emit, lift, ret, raise;
  cbn [trace ollama_calls fst snd].

Lemma pipeline_analysis_ok (w : world) (st : run_state)
  (title article out err : string) :
  ollama_run w (ollama_calls st) (build_analysis_prompt title article) =
    (0%Z, out, err) ->
  pipeline w title article st =
    try_except (try_body w article (strip out)) (handler (strip out))
      (analysed st title article).
Proof.
  intros H. unfold pipeline, query_ollama. run_step. rewrite H.
  cbn [Z.eqb]. unfold analysed, analysis_events.
  rewrite <- !app_assoc. reflexivity.
Qed.

Lemma pipeline_analysis_fails (w : world) (st : run_state)
  (title article out err : string) (status : Z) :
  ollama_run w (ollama_calls st) (build_analysis_prompt title article) =
    (status, out, err) ->
  status <> 0%Z ->
  pipeline w title article st =
    (analysed st title article, Raise (ollama_error err)).
Proof.
  intros H Hs. unfold pipeline, query_ollama. run_step. rewrite H.
  destruct (Z.eqb_spec status 0) as [->|_]; [contradiction|].
  unfold analysed, analysis_events. rewrite <- !app_assoc. reflexivity.
Qed.

Lemma try_body_no_json (w : world) (article response : string)
  (st : run_state) (e : exn) :
  extract_json response = Raise e ->
  try_body w article response st = (st, Raise e).
Proof.
  intros H. unfold try_body. run_step. rewrite H. reflexivity.
Qed.

Lemma try_body_bad_json (w : world) (article response json_str : string)
  (st : run_state) (e : exn) :
  extract_json response = Ok json_str ->
  json_loads w json_str = Raise e ->
  try_body w article response st = (st, Raise e).
Proof.
  intros H He. unfold try_body. run_step. rewrite H, He. reflexivity.
Qed.

(** The [try] block up to the Reviser's model invocation, when every step
    before it succeeds. *)
Lemma try_body_reviser (w : world) (article response json_str prompt : string)
  (raw analysis : json) (st : run_state) :
  extract_json response = Ok json_str ->
  json_loads w json_str = Ok raw ->
  normalize_analysis_json raw = Ok analysis ->
  build_revision_prompt article analysis = Ok prompt ->
  try_body w article response st =
    (revised_article <- query_ollama w prompt ;;
     print (nl ++ "Revised Article:" ++ nl) ;;;
     print revised_article)
      (mk_state (trace st ++ report_events w analysis) (ollama_calls st)).
Proof.
  intros H1 H2 H3 H4. unfold try_body. run_step.
  rewrite H1, H2, H3, H4. unfold report_events.
  rewrite <- !app_assoc. reflexivity.
Qed.

Lemma extract_json_raises (text : string) (e : exn) :
  extract_json text = Raise e ->
  e = mk_exn ValueError "No JSON object found in text".
Proof.
  unfold extract_json. destruct (re_search json_object_re text).
  - discriminate.
  - intros [= <-]. reflexivity.
Qed.

Lemma handler_parse (response : string) (e : exn) (st : run_state) :
  is_value_error e = true ->
  handler response e st =
    (mk_state (trace st ++
               [Print "Failed to parse JSON from analysis response. Raw output:";
                Print response;
                Print ("Parsing error: " ++ exn_str e)])
       (ollama_calls st), Ok tt).
Proof.
  intros H. unfold handler. rewrite H. run_step.
  rewrite <- !app_assoc. reflexivity.
Qed.

Lemma handler_generic (response : string) (e : exn) (st : run_state) :
  is_value_error e = false ->
  handler response e st =
    (mk_state (trace st ++ [Print ("Error during processing: " ++ exn_str e)])
       (ollama_calls st), Ok tt).
Proof.
  intros H. unfold handler. rewrite H. reflexivity.
Qed.

Lemma model_invocations_app (tr1 tr2 : list event) :
  model_invocations (tr1 ++ tr2) =
  (model_invocations tr1 ++ model_invocations tr2)%list.
Proof.
  induction tr1 as [|ev tr1 IH]; [reflexivity|].
  destruct ev; cbn; rewrite IH; reflexivity.
Qed.

(** The extraction never invokes the model. *)
Lemma extract_no_invocation (w : world) (st : run_state)
  (r : result (option string * option string)) :
  extract_article_with_playwright w url initial_state = (st, r) ->
  model_invocations (trace st) = [] /\ ollama_calls st = 0.
Proof.
  unfold extract_article_with_playwright.
  destruct (goto_raises w); [intros [= <- _]; split; reflexivity|].
  destruct (wait_raises w); [intros [= <- _]; split; reflexivity|].
  destruct (soup_title w) as [[s|]|];
    try (intros [= <- _]; split; reflexivity);
    destruct (article_div w); intros [= <- _]; split; reflexivity.
Qed.

(** *** The trace only grows *)

Lemma grows_ret {A} (a : A) : grows (ret a).
Proof. intros st. exists []. cbn. rewrite app_nil_r. reflexivity. Qed.

Lemma grows_raise {A} (e : exn) : grows (@raise A e).
Proof. intros st. exists []. cbn. rewrite app_nil_r. reflexivity. Qed.

Lemma grows_lift {A} (r : result A) : grows (lift r).
Proof. intros st. exists []. cbn. rewrite app_nil_r. reflexivity. Qed.

Lemma grows_emit (ev : event) : grows (emit ev).
Proof. intros st. exists [ev]. reflexivity. Qed.

Lemma grows_print (text : string) : grows (print text).
Proof. apply grows_emit. Qed.

Lemma grows_bind {A B} (m : M A) (k : A -> M B) :
  grows m -> (forall a, grows (k a)) -> grows (bind m k).
Proof.
  intros Hm Hk st. destruct (Hm st) as [evs1 H1]. unfold bind.
  destruct (m st) as [st' [a|e]]; cbn [fst] in *.
  - destruct (Hk a st') as [evs2 H2]. exists (evs1 ++ evs2)%list.
    rewrite H2, H1, app_assoc. reflexivity.
  - exists evs1. exact H1.
Qed.

Lemma grows_try_except {A} (body : M A) (h : exn -> M A) :
  grows body -> (forall e, grows (h e)) -> grows (try_except body h).
Proof.
  intros Hm Hh st. destruct (Hm st) as [evs1 H1]. unfold try_except.
  destruct (body st) as [st' [a|e]]; cbn [fst] in *.
  - exists evs1. exact H1.
  - destruct (Hh e st') as [evs2 H2]. exists (evs1 ++ evs2)%list.
    rewrite H2, H1, app_assoc. reflexivity.
Qed.

Lemma grows_query_ollama (w : world) (prompt : string) :
  grows (query_ollama w prompt).
Proof.
  intros st. exists [OllamaRun prompt]. unfold query_ollama.
  destruct (ollama_run w (ollama_calls st) prompt) as [[status out] err].
  destruct (status =? 0)%Z; reflexivity.
Qed.

Create HintDb grows.
#[local] Hint Resolve grows_ret grows_raise grows_lift grows_emit grows_print
  grows_bind grows_try_except grows_query_ollama : grows.

Lemma grows_try_body (w : world) (article response : string) :
  grows (try_body w article response).
Proof. unfold try_body. auto 20 with grows. Qed.

Lemma grows_handler (response : string) (e : exn) :
  grows (handler response e).
Proof. unfold handler. destruct (is_value_error e); auto 10 with grows. Qed.

(** Once entered, the guarded block reaches the Analyzer's model
    invocation. *)
Lemma pipeline_invokes_analyzer (w : world) (title article : string)
  (st : run_state) :
  exists evs,
    trace (fst (pipeline w title article st)) =
    (trace st ++ analysis_events title article ++ evs)%list.
Proof.
  destruct (ollama_run w (ollama_calls st) (build_analysis_prompt title article))
    as [[status out] err] eqn:E.
  destruct (Z.eq_dec status 0) as [->|Hs].
  - rewrite (pipeline_analysis_ok _ _ _ _ _ _ E).
    destruct (grows_try_except _ _ (grows_try_body w article (strip out))
                (grows_handler (strip out)) (analysed st title article))
      as [evs H].
    exists evs. rewrite H. unfold analysed. cbn [trace].
    rewrite app_assoc. reflexivity.
  - rewrite (pipeline_analysis_fails _ _ _ _ _ _ _ E Hs).
    exists []. cbn [fst analysed trace]. rewrite app_nil_r. reflexivity.
Qed.

(** *** The claims about the run *)

(** C7: when the wait for the selector times out, the Extractor prints its
    guidance, closes the browser and returns [(None, None)]; the run then
    ends without a single model invocation. *)
Theorem wait_timeout_stops_run (w : world) (e : exn) :
  goto_raises w = None -> wait_raises w = Some e ->
  extract_article_with_playwright w url initial_state =
    (mk_state timeout_trace 0, Ok (None, None)) /\
  run w = (timeout_trace, ExitedNormally) /\
  model_invocations (fst (run w)) = [].
Proof.
  intros Hg Hw. pose proof (extract_timeout w e Hg Hw) as H.
  assert (Hrun : run w = (timeout_trace, ExitedNormally))
    by (apply (run_skipped w _ _ _ H); reflexivity).
  split; [exact H|]. split; [exact Hrun|]. rewrite Hrun. reflexivity.
Qed.

Lemma wait_timeout_stops_run_witness :
  run timeout_world = (timeout_trace, ExitedNormally).
Proof.
  apply (wait_timeout_stops_run timeout_world
           (mk_exn (OtherError "TimeoutError") "Timeout 60000ms exceeded."));
    reflexivity.
Defined.

(** C6: when the Analyzer's output holds no JSON span, or its span does not
    parse, the first [except] clause takes the failure: the run prints the
    raw model output and the error, ends normally, and has made the
    Analyzer's model invocation only. *)
Theorem parse_failure_halts (w : world) (st : run_state)
  (title article out err : string) (e : exn) :
  extract_article_with_playwright w url initial_state =
    (st, Ok (Some title, Some article)) ->
  non_empty title = true -> non_empty article = true ->
  ollama_run w (ollama_calls st) (build_analysis_prompt title article) =
    (0%Z, out, err) ->
  (extract_json (strip out) = Raise e \/
   exists json_str, extract_json (strip out) = Ok json_str /\
     json_loads w json_str = Raise e /\ is_value_error e = true) ->
  run w =
    ((trace st ++ analysis_events title article ++
      [Print "Failed to parse JSON from analysis response. Raw output:";
       Print (strip out);
       Print ("Parsing error: " ++ exn_str e)])%list,
     ExitedNormally) /\
  model_invocations (fst (run w)) = [build_analysis_prompt title article].
Proof.
  intros Hx Ht Ha Ho Hfail.
  assert (Hbody : try_body w article (strip out) (analysed st title article)
                  = (analysed st title article, Raise e) /\
                  is_value_error e = true).
  { destruct Hfail as [He|(json_str & Hj & He & Hv)].
    - split; [apply try_body_no_json, He|].
      rewrite (extract_json_raises _ _ He). reflexivity.
    - split; [apply (try_body_bad_json _ _ _ _ _ _ Hj He)|exact Hv]. }
  destruct Hbody as [Hbody Hv].
  assert (Hrun : run w =
    ((trace st ++ analysis_events title article ++
      [Print "Failed to parse JSON from analysis response. Raw output:";
       Print (strip out);
       Print ("Parsing error: " ++ exn_str e)])%list,
     ExitedNormally)).
  { rewrite (run_of_pipeline w st title article Hx Ht Ha).
    rewrite (pipeline_analysis_ok _ _ _ _ _ _ Ho).
    unfold try_except. rewrite Hbody, (handler_parse _ _ _ Hv).
    unfold analysed. cbn [trace]. rewrite <- app_assoc. reflexivity. }
  split; [exact Hrun|]. rewrite Hrun. cbn [fst].
  rewrite model_invocations_app.
  rewrite (proj1 (extract_no_invocation _ _ _ Hx)). reflexivity.
Qed.

Lemma parse_failure_halts_witness :
  model_invocations (fst (run no_json_world)) =
    [build_analysis_prompt "Sample Title" "Para one."] /\
  model_invocations (fst (run bad_json_world)) =
    [build_analysis_prompt "Sample Title" "Para one."].
Proof.
  split.
  - apply (parse_failure_halts no_json_world (mk_state extracted_trace 0)
             "Sample Title" "Para one." "I cannot answer." "model unavailable"
             (mk_exn ValueError "No JSON object found in text"));
      try reflexivity.
    left. reflexivity.
  - apply (parse_failure_halts bad_json_world (mk_state extracted_trace 0)
             "Sample Title" "Para one." "{oops}" "model unavailable"
             decode_error);
      try reflexivity.
    right. exists "{oops}". repeat split.
Defined.

(** C3, as stated, fails: a missing article container after a successful
    wait, and a non-zero status of the Analyzer's model invocation, both
    leave the process with an unhandled exception. *)
Lemma unhandled_failure_counterexample :
  run missing_container_world =
    (extracted_trace, UnhandledException content_missing) /\
  run analyzer_down_world =
    ((extracted_trace ++ analysis_events "Sample Title" "Para one.")%list,
     UnhandledException (ollama_error "model unavailable")) /\
  ~ (forall w, snd (run w) = ExitedNormally).
Proof.
  split; [reflexivity|]. split; [reflexivity|].
  intros H. specialize (H missing_container_world). discriminate H.
Qed.

(** C3 (amended): a failure raised inside the [try] block that is not a
    [ValueError], such as a non-zero status of the Reviser's model
    invocation, is taken by the generic [except] clause: the run prints
    ["Error during processing: ..."] and ends normally.  A missing article
    container and a non-zero status of the Analyzer's model invocation are
    raised outside the [try] block and end the process with an unhandled
    exception. *)
Theorem failures_caught_in_try_block (w : world) :
  (forall st title article out err st' e,
     extract_article_with_playwright w url initial_state =
       (st, Ok (Some title, Some article)) ->
     non_empty title = true -> non_empty article = true ->
     ollama_run w (ollama_calls st) (build_analysis_prompt title article) =
       (0%Z, out, err) ->
     try_body w article (strip out) (analysed st title article) =
       (st', Raise e) ->
     is_value_error e = false ->
     run w =
       ((trace st' ++ [Print ("Error during processing: " ++ exn_str e)])%list,
        ExitedNormally)) /\
  (forall st title article out err json_str raw analysis prompt status out2 err2,
     extract_article_with_playwright w url initial_state =
       (st, Ok (Some title, Some article)) ->
     non_empty title = true -> non_empty article = true ->
     ollama_run w (ollama_calls st) (build_analysis_prompt title article) =
       (0%Z, out, err) ->
     extract_json (strip out) = Ok json_str ->
     json_loads w json_str = Ok raw ->
     normalize_analysis_json raw = Ok analysis ->
     build_revision_prompt article analysis = Ok prompt ->
     ollama_run w (S (ollama_calls st)) prompt = (status, out2, err2) ->
     status <> 0%Z ->
     run w =
       ((trace st ++ analysis_events title article ++
         report_events w analysis ++
         [OllamaRun prompt;
          Print ("Error during processing: Ollama error: " ++ strip err2)])%list,
        ExitedNormally)) /\
  (goto_raises w = None -> wait_raises w = None ->
   soup_title w <> Some None -> article_div w = None ->
   run w = (extracted_trace, UnhandledException content_missing)) /\
  (forall st title article status out err,
     extract_article_with_playwright w url initial_state =
       (st, Ok (Some title, Some article)) ->
     non_empty title = true -> non_empty article = true ->
     ollama_run w (ollama_calls st) (build_analysis_prompt title article) =
       (status, out, err) ->
     status <> 0%Z ->
     run w =
       ((trace st ++ analysis_events title article)%list,
        UnhandledException (ollama_error err))).
Proof.
  split; [|split; [|split]].
  - intros st title article out err st' e Hx Ht Ha Ho Hbody Hv.
    rewrite (run_of_pipeline w st title article Hx Ht Ha).
    rewrite (pipeline_analysis_ok _ _ _ _ _ _ Ho).
    unfold try_except. rewrite Hbody, (handler_generic _ _ _ Hv).
    reflexivity.
  - intros st title article out err json_str raw analysis prompt status out2
      err2 Hx Ht Ha Ho H1 H2 H3 H4 Hr Hs.
    rewrite (run_of_pipeline w st title article Hx Ht Ha).
    rewrite (pipeline_analysis_ok _ _ _ _ _ _ Ho).
    unfold try_except.
    rewrite (try_body_reviser _ _ _ _ _ _ _ _ H1 H2 H3 H4).
    unfold query_ollama, analysed. run_step. rewrite Hr.
    destruct (Z.eqb_spec status 0) as [->|_]; [contradiction|].
    rewrite handler_generic by reflexivity. cbn [trace exn_str].
    rewrite <- !app_assoc. reflexivity.
  - intros Hg Hw Ht Hd.
    apply (run_extract_raises w _ _ (extract_missing w Hg Hw Ht Hd)).
  - intros st title article status out err Hx Ht Ha Ho Hs.
    rewrite (run_of_pipeline w st title article Hx Ht Ha).
    rewrite (pipeline_analysis_fails _ _ _ _ _ _ _ Ho Hs). reflexivity.
Qed.

Lemma failures_caught_in_try_block_witness :
  (exists analysis prompt,
     normalize_analysis_json flat_analysis = Ok analysis /\
     build_revision_prompt "Para one." analysis = Ok prompt /\
     run reviser_down_world =
       ((extracted_trace ++ analysis_events "Sample Title" "Para one." ++
         report_events reviser_down_world analysis ++
         [OllamaRun prompt;
          Print "Error during processing: Ollama error: model unavailable"])%list,
        ExitedNormally)) /\
  run missing_container_world =
    (extracted_trace, UnhandledException content_missing) /\
  run analyzer_down_world =
    ((extracted_trace ++ analysis_events "Sample Title" "Para one.")%list,
     UnhandledException (ollama_error "model unavailable")).
Proof.
  split; [|split].
  - do 2 eexists. split; [reflexivity|]. split; [reflexivity|].
    apply (proj1 (proj2 (failures_caught_in_try_block reviser_down_world))
             (mk_state extracted_trace 0) "Sample Title" "Para one." "{}"
             "model unavailable" "{}" flat_analysis _ _ 1%Z "Revised."
             "model unavailable");
      try reflexivity.
    discriminate.
  - apply (proj1 (proj2 (proj2
             (failures_caught_in_try_block missing_container_world))));
      try reflexivity.
    discriminate.
  - apply (proj2 (proj2 (proj2
             (failures_caught_in_try_block analyzer_down_world)))
             (mk_state extracted_trace 0) "Sample Title" "Para one." 1%Z
             EmptyString "model unavailable");
      try reflexivity.
    discriminate.
Defined.

(** C10, as stated, fails: the title is not always non-empty.  On a page
    whose title element holds only white space the Extractor returns an
    empty title with a non-empty body, and the guard skips the pipeline. *)
Lemma blank_title_counterexample :
  extract_article_with_playwright blank_title_world url initial_state =
    (mk_state extracted_trace 0, Ok (Some EmptyString, Some "Para one.")) /\
  run blank_title_world = (extracted_trace, ExitedNormally) /\
  ~ (forall w st title body,
       extract_article_with_playwright w url initial_state =
         (st, Ok (Some title, Some body)) ->
       non_empty title = true) /\
  ~ (forall w st title body,
       extract_article_with_playwright w url initial_state =
         (st, Ok (Some title, Some body)) ->
       non_empty body = true ->
       model_invocations (fst (run w)) <> []).
Proof.
  split; [reflexivity|]. split; [reflexivity|]. split.
  - intros H.
    specialize (H blank_title_world _ EmptyString "Para one." eq_refl).
    discriminate H.
  - intros H.
    apply (H blank_title_world _ EmptyString "Para one." eq_refl eq_refl).
    reflexivity.
Qed.

(** C10 (amended): when the extraction succeeds with an empty body, the run
    ends after the extraction, with nothing more printed and no model
    invocation, because the guarded block is entered only when title and
    body are both non-empty.  The title is the placeholder
    ["No title found"] when the page has no title element, and the block is
    then entered exactly when the body is non-empty; a title element whose
    text strips to nothing gives an empty title, and the run is skipped in
    the same way. *)
Theorem empty_body_skips_pipeline (w : world) (body : string) :
  goto_raises w = None -> wait_raises w = None ->
  soup_title w <> Some None -> article_div w = Some body ->
  extract_article_with_playwright w url initial_state =
    (mk_state extracted_trace 0, Ok (Some (page_title w), Some body)) /\
  (body = EmptyString ->
   run w = (extracted_trace, ExitedNormally) /\
   model_invocations (fst (run w)) = []) /\
  (soup_title w = None ->
   page_title w = "No title found" /\
   (body <> EmptyString ->
    exists evs, fst (run w) =
      (extracted_trace ++ analysis_events "No title found" body ++ evs)%list)) /\
  (page_title w = EmptyString ->
   run w = (extracted_trace, ExitedNormally) /\
   model_invocations (fst (run w)) = []).
Proof.
  intros Hg Hw Ht Hd.
  pose proof (extract_success w body Hg Hw Ht Hd) as Hx.
  split; [exact Hx|]. split; [|split].
  - intros ->.
    assert (Hrun : run w = (extracted_trace, ExitedNormally)).
    { apply (run_skipped w _ _ _ Hx). cbn. apply andb_false_r. }
    split; [exact Hrun|]. rewrite Hrun. reflexivity.
  - intros Hnone.
    assert (Hp : page_title w = "No title found")
      by (unfold page_title; rewrite Hnone; reflexivity).
    split; [exact Hp|]. intros Hb. rewrite Hp in Hx.
    rewrite (run_of_pipeline w _ _ _ Hx);
      [|reflexivity|destruct body; [contradiction|reflexivity]].
    destruct (pipeline_invokes_analyzer w "No title found" body
                (mk_state extracted_trace 0)) as [evs Hevs].
    exists evs.
    destruct (pipeline w "No title found" body (mk_state extracted_trace 0))
      as [st' [u|e]]; exact Hevs.
  - intros Hp. rewrite Hp in Hx.
    assert (Hrun : run w = (extracted_trace, ExitedNormally))
      by (apply (run_skipped w _ _ _ Hx); reflexivity).
    split; [exact Hrun|]. rewrite Hrun. reflexivity.
Qed.

Lemma empty_body_skips_pipeline_witness :
  run empty_body_world = (extracted_trace, ExitedNormally) /\
  model_invocations (fst (run empty_body_world)) = [].
Proof.
  refine (proj1 (proj2 (empty_body_skips_pipeline empty_body_world
                          EmptyString eq_refl eq_refl _ eq_refl)) eq_refl).
  discriminate.
Defined.

(** The end-to-end scenario of the specification: a flat answer with an
    empty [style_guidelines] list is normalized, and the Reviser is invoked
    with a prompt that lists the two generated readability suggestions. *)
Example end_to_end_scenario :
  let w := sample_world (Some (Some "Sample Title"))
             (Some ("Para one." ++ nl ++ "Para two.")) 0 "{}"
             (fun _ => Ok flat_analysis) 0 in
  snd (run w) = ExitedNormally /\
  model_invocations (fst (run w)) =
    [build_analysis_prompt "Sample Title" ("Para one." ++ nl ++ "Para two.");
     revision_template ("Para one." ++ nl ++ "Para two.")
       (bullet_list ["Improve readability clarity";
                     "Use simpler structure for readability"])].
Proof. split; reflexivity. Qed.

(** ** Further properties of [extract_json] *)

Lemma tail_shape (s m : string) :
  re_match brace_tail s = Some m ->
  exists middle rest,
    m = middle ++ String rbrace EmptyString /\ s = m ++ rest.
Proof.
  revert m. induction s as [|x s IH]; intros m H.
  - discriminate.
  - change (re_match brace_tail (String x s))
      with (match re_match brace_tail s with
            | Some m => Some (String x m)
            | None => re_match [RLit rbrace] (String x s)
            end) in H.
    destruct (re_match brace_tail s) as [m'|].
    + injection H as <-. destruct (IH m' eq_refl) as (middle & rest & -> & Hs).
      exists (String x middle), rest. split; [reflexivity|].
      cbn. rewrite <- Hs. reflexivity.
    + cbn in H. destruct (Ascii.eqb_spec x rbrace) as [->|_]; [|discriminate].
      injection H as <-. exists EmptyString, s. split; reflexivity.
Qed.

Lemma search_shape (s m : string) :
  re_search json_object_re s = Some m ->
  exists before middle after,
    m = braced middle /\ s = before ++ m ++ after.
Proof.
  revert m. induction s as [|x s IH]; intros m H.
  - discriminate.
  - unfold re_search in H; fold re_search in H.
    rewrite match_at_lbrace in H.
    destruct (Ascii.eqb_spec x lbrace) as [->|_].
    + destruct (re_match brace_tail s) as [m'|] eqn:E.
      * cbn in H. injection H as <-.
        destruct (tail_shape _ _ E) as (middle & rest & -> & Hs).
        exists EmptyString, middle, rest. split; [reflexivity|].
        rewrite Hs. reflexivity.
      * cbn in H. destruct (IH m H) as (before & middle & after & -> & Hs).
        exists (String lbrace before), middle, after.
        split; [reflexivity|]. rewrite Hs. reflexivity.
    + destruct (IH m H) as (before & middle & after & -> & Hs).
      exists (String x before), middle, after.
      split; [reflexivity|]. rewrite Hs. reflexivity.
Qed.

(** [.*\}] takes a text that ends with ['}'] whole. *)
Lemma tail_whole (middle : string) :
  re_match brace_tail (middle ++ String rbrace EmptyString) =
  Some (middle ++ String rbrace EmptyString).
Proof.
  induction middle as [|x middle IH]; [reflexivity|].
  change (re_match brace_tail (String x middle ++ String rbrace EmptyString))
    with (match re_match brace_tail (middle ++ String rbrace EmptyString) with
          | Some m => Some (String x m)
          | None => re_match [RLit rbrace]
                      (String x (middle ++ String rbrace EmptyString))
          end).
  rewrite IH. reflexivity.
Qed.

Lemma extract_json_braced (middle : string) :
  extract_json (braced middle) = Ok (braced middle).
Proof.
  unfold extract_json, braced, re_search.
  rewrite match_at_lbrace, tail_whole. reflexivity.
Qed.

(** X1: what [extract_json] returns opens with ['{'], closes with ['}'] and
    is a contiguous part of the text it was given. *)
Theorem extract_json_span (text span : string) :
  extract_json text = Ok span ->
  (exists middle, span = braced middle) /\ occurs_in span text.
Proof.
  unfold extract_json. intros H.
  destruct (re_search json_object_re text) as [m|] eqn:E; [|discriminate].
  injection H as <-.
  destruct (search_shape _ _ E) as (before & middle & after & Hm & Hs).
  split; [exists middle; exact Hm|]. exists before, after. exact Hs.
Qed.

Lemma extract_json_span_witness :
  (exists middle, example_span = braced middle) /\
  occurs_in example_span example_text.
Proof.
  apply (extract_json_span example_text example_span). reflexivity.
Defined.

(** X2: [extract_json] is idempotent: applied to its own result it returns
    that result; more generally it returns whole every text that opens
    with ['{'] and closes with ['}'], inner braces or not. *)
Theorem extract_json_idempotent (text span : string) :
  extract_json text = Ok span ->
  extract_json span = Ok span /\
  forall middle, extract_json (braced middle) = Ok (braced middle).
Proof.
  intros H. split; [|apply extract_json_braced].
  unfold extract_json in H.
  destruct (re_search json_object_re text) as [m|] eqn:E; [|discriminate H].
  injection H as <-.
  destruct (search_shape _ _ E) as (before & middle & after & -> & _).
  apply extract_json_braced.
Qed.

Lemma extract_json_idempotent_witness :
  extract_json example_span = Ok example_span.
Proof.
  apply (extract_json_idempotent example_text example_span). reflexivity.
Defined.

Lemma lacks_tail (c x : ascii) (s : string) :
  lacks c (String x s) -> x <> c /\ lacks c s.
Proof.
  intros H. split.
  - intros ->. apply (H 0). reflexivity.
  - intros k. apply (H (S k)).
Qed.

Lemma tail_suffix (s post : string) :
  lacks rbrace post ->
  re_match brace_tail (s ++ post) = re_match brace_tail s.
Proof.
  intros Hpost. induction s as [|x s IH].
  - cbn [append]. rewrite (tail_no_rbrace post Hpost). reflexivity.
  - change (re_match brace_tail (String x s ++ post))
      with (match re_match brace_tail (s ++ post) with
            | Some m => Some (String x m)
            | None => re_match [RLit rbrace] (String x (s ++ post))
            end).
    change (re_match brace_tail (String x s))
      with (match re_match brace_tail s with
            | Some m => Some (String x m)
            | None => re_match [RLit rbrace] (String x s)
            end).
    rewrite IH. reflexivity.
Qed.

Lemma search_lacks_rbrace (s : string) :
  lacks rbrace s -> re_search json_object_re s = None.
Proof.
  intros H. apply search_no_span. intros (i & j & _ & _ & Hj).
  apply (H j Hj).
Qed.

Lemma search_suffix (s post : string) :
  lacks rbrace post ->
  re_search json_object_re (s ++ post) = re_search json_object_re s.
Proof.
  intros Hpost. induction s as [|x s IH].
  - cbn [append]. rewrite (search_lacks_rbrace post Hpost). reflexivity.
  - cbn [append]. unfold re_search; fold re_search.
    rewrite !match_at_lbrace, (tail_suffix s post Hpost), IH. reflexivity.
Qed.

Lemma search_prefix (pre s : string) :
  lacks lbrace pre ->
  re_search json_object_re (pre ++ s) = re_search json_object_re s.
Proof.
  induction pre as [|x pre IH]; intros Hpre; [reflexivity|].
  destruct (lacks_tail _ _ _ Hpre) as [Hx Hrest].
  cbn [append]. unfold re_search; fold re_search.
  rewrite match_at_lbrace.
  destruct (Ascii.eqb_spec x lbrace) as [->|_]; [contradiction|].
  apply IH, Hrest.
Qed.

(** X3: prose around the object is ignored: text put before that holds no
    ['{'] and text put after that holds no ['}'] change neither the result
    nor the failure of [extract_json]. *)
Theorem extract_json_ignores_prose (before text after : string) :
  lacks lbrace before -> lacks rbrace after ->
  extract_json (before ++ text ++ after) = extract_json text.
Proof.
  intros Hb Ha. unfold extract_json.
  rewrite (search_prefix before _ Hb), (search_suffix text after Ha).
  reflexivity.
Qed.

Lemma extract_json_ignores_prose_witness :
  extract_json ("Sure} " ++ "{x}" ++ " {done") = extract_json "{x}".
Proof.
  apply (extract_json_ignores_prose "Sure} " "{x}" " {done").
  - intros k. do 7 (destruct k as [|k]; [discriminate|]). discriminate.
  - intros k. do 7 (destruct k as [|k]; [discriminate|]). discriminate.
Defined.

(** ** Further properties of normalization and of the revision prompt *)

(** X4: normalization is idempotent: a second pass over a normalized object
    returns it unchanged. *)
Theorem normalize_idempotent (raw res : json) :
  normalize_analysis_json raw = Ok res ->
  normalize_analysis_json res = Ok res.
Proof.
  intros H. destruct raw as [| | | | | |d]; try discriminate H.
  unfold normalize_analysis_json in H.
  destruct (dict_lookup "readability" d) as [v|] eqn:Hr.
  - destruct v as [| | | |r| |];
      try (injection H as <-; unfold normalize_analysis_json; rewrite Hr;
           reflexivity).
    unfold wrap, dict_getitem in H. rewrite Hr in H.
    destruct (dict_lookup "structure" d); [|discriminate H].
    destruct (dict_lookup "completeness" d); [|discriminate H].
    cbn in H. injection H as <-. reflexivity.
  - injection H as <-. unfold normalize_analysis_json. rewrite Hr.
    reflexivity.
Qed.

Lemma normalize_idempotent_witness :
  exists res,
    normalize_analysis_json (JDict flat_input) = Ok res /\
    normalize_analysis_json res = Ok res.
Proof.
  eexists. split; [reflexivity|].
  apply (normalize_idempotent (JDict flat_input)). reflexivity.
Defined.

(** X5: the only ways normalization fails: on a value that is not an
    object, with [AttributeError]; and on an object whose [readability] is
    a plain string and which lacks [structure] or, [structure] being
    there, [completeness], with the [KeyError] of that key. *)
Theorem normalize_failures (raw : json) (e : exn) :
  normalize_analysis_json raw = Raise e ->
  match raw with
  | JDict d =>
      (exists r, dict_lookup "readability" d = Some (JStr r)) /\
      ((dict_lookup "structure" d = None /\
        e = mk_exn KeyError "'structure'") \/
       (dict_lookup "structure" d <> None /\
        dict_lookup "completeness" d = None /\
        e = mk_exn KeyError "'completeness'"))
  | _ => e = no_attribute raw "get"
  end.
Proof.
  intros H. destruct raw as [| | | | | |d];
    try (injection H as <-; reflexivity).
  unfold normalize_analysis_json in H.
  destruct (dict_lookup "readability" d) as [[| | | |r| |]|] eqn:Hr;
    try discriminate H.
  split; [exists r; reflexivity|].
  unfold wrap, dict_getitem in H. rewrite Hr in H.
  destruct (dict_lookup "structure" d) as [s|].
  - right. split; [discriminate|].
    destruct (dict_lookup "completeness" d) as [c|]; [discriminate H|].
    cbn in H. injection H as <-. split; reflexivity.
  - left. cbn in H. injection H as <-. split; reflexivity.
Qed.

Lemma normalize_failures_witness :
  (exists r, dict_lookup "readability" [("readability", JStr "clear")] =
               Some (JStr r)) /\
  ((dict_lookup "structure" [("readability", JStr "clear")] = None /\
    mk_exn KeyError "'structure'" = mk_exn KeyError "'structure'") \/
   (dict_lookup "structure" [("readability", JStr "clear")] <> None /\
    dict_lookup "completeness" [("readability", JStr "clear")] = None /\
    mk_exn KeyError "'structure'" = mk_exn KeyError "'completeness'")).
Proof.
  apply (normalize_failures (JDict [("readability", JStr "clear")])
           (mk_exn KeyError "'structure'")).
  reflexivity.
Defined.






Lemma get_method_raise (v : json) (k : string) (default : json) (e : exn) :
  get_method v k default = Raise e -> is_value_error e = false.
Proof.
  destruct v; cbn; intros H; try discriminate H;
    injection H as <-; reflexivity.
Qed.

Lemma add_raise (a b : json) (e : exn) :
  Py.add a b = Raise e -> is_value_error e = false.
Proof.
  destruct a, b; cbn; unfold int_to_float;
    try match goal with
        | |- context [PrimFloat.is_infinity ?f] =>
            destruct (PrimFloat.is_infinity f)
        end;
    cbn; intros H; try discriminate H; injection H as <-; reflexivity.
Qed.

Lemma str_items_raise (xs : list json) (e : exn) :
  forall i, str_items i xs = Raise e -> is_value_error e = false.
Proof.
  induction xs as [|x xs IH]; intros i H; [discriminate H|].
  destruct x; cbn in H; try (injection H as <-; reflexivity).
  destruct (str_items (S i) xs) eqn:E; [discriminate H|].
  cbn in H. injection H as <-. apply (IH _ E).
Qed.

Lemma join_raise (sep : string) (v : json) (e : exn) :
  join sep v = Raise e -> is_value_error e = false.
Proof.
  destruct v; cbn; intros H; try discriminate H;
    try (injection H as <-; reflexivity).
  destruct (str_items 0 xs) eqn:E; [discriminate H|].
  cbn in H. injection H as <-. apply (str_items_raise _ _ _ E).
Qed.

Lemma normalize_raise_class (raw : json) (e : exn) :
  normalize_analysis_json raw = Raise e -> is_value_error e = false.
Proof.
  intros H. destruct raw as [| | | | | |d];
    try (injection H as <-; reflexivity).
  unfold normalize_analysis_json in H.
  destruct (dict_lookup "readability" d) as [[| | | |r| |]|] eqn:Hr;
    try discriminate H.
  unfold wrap, dict_getitem in H. rewrite Hr in H.
  destruct (dict_lookup "structure" d) as [s|];
    [|cbn in H; injection H as <-; reflexivity].
  destruct (dict_lookup "completeness" d) as [c|]; [discriminate H|].
  cbn in H. injection H as <-. reflexivity.
Qed.

(** X8: neither normalization nor the building of the revision prompt
    raises a [ValueError]; their failures are [KeyError], [AttributeError],
    [TypeError] or [OverflowError], which the first [except] clause of the
    entry point does not take. *)
Theorem no_value_error_after_parsing :
  (forall raw e, normalize_analysis_json raw = Raise e ->
     is_value_error e = false) /\
  (forall article analysis e,
     build_revision_prompt article analysis = Raise e ->
     is_value_error e = false).
Proof.
  split.
  - intros raw e H. apply (normalize_raise_class raw e H).
  - intros article analysis e H.
    unfold build_revision_prompt, combined_suggestions in H.
    destruct (readability_suggestions analysis) as [rs|e1] eqn:Hr.
    + destruct (style_suggestions analysis) as [ss|e2] eqn:Hs.
      * cbn [rbind] in H.
        destruct (Py.add rs ss) as [cs|e3] eqn:Ha.
        -- cbn [rbind] in H. unfold suggestions_text in H.
           destruct (truthy cs); [|discriminate H].
           destruct (join bullet cs) as [j|e4] eqn:Hj; [discriminate H|].
           cbn in H. injection H as <-. apply (join_raise _ _ _ Hj).
        -- cbn in H. injection H as <-. apply (add_raise _ _ _ Ha).
      * cbn in H. injection H as <-.
        unfold style_suggestions in Hs.
        destruct (get_method analysis "style_guidelines" (JList []))
          as [sg|e5] eqn:Hg.
        -- destruct sg; discriminate Hs.
        -- cbn in Hs. injection Hs as <-. apply (get_method_raise _ _ _ _ Hg).
    + cbn in H. injection H as <-.
      unfold readability_suggestions in Hr.
      destruct (get_method analysis "readability" (JDict [])) as [rd|e6] eqn:Hg.
      * cbn in Hr. apply (get_method_raise _ _ _ _ Hr).
      * cbn in Hr. injection Hr as <-. apply (get_method_raise _ _ _ _ Hg).
Qed.

Lemma no_value_error_after_parsing_witness :
  is_value_error (mk_exn KeyError "'structure'") = false /\
  is_value_error (cannot_concatenate "list" (JStr "concise")) = false.
Proof.
  split.
  - apply (proj1 no_value_error_after_parsing
             (JDict [("readability", JStr "clear")])).
    reflexivity.
  - apply (proj2 no_value_error_after_parsing "Body."
             (JDict [("readability", wrapped "readability" (JStr "clear"));
                     ("style_guidelines",
                      JDict [("suggestions", JStr "concise")])])).
    reflexivity.
Defined.

(** ** Further properties of the run *)




(** The handlers print, never raise and never invoke the model. *)
Lemma handler_quiet (response : string) (e : exn) (st : run_state) :
  exists evs,
    handler response e st =
      (mk_state (trace st ++ evs) (ollama_calls st), Ok tt) /\
    model_invocations evs = [].
Proof.
  destruct (is_value_error e) eqn:Hv.
  - eexists. split; [apply (handler_parse _ _ _ Hv)|reflexivity].
  - eexists. split; [apply (handler_generic _ _ _ Hv)|reflexivity].
Qed.

(** Once the Analyzer's model invocation has returned, the guarded block
    returns. *)
Lemma pipeline_returns (w : world) (st : run_state)
  (title article out err : string) :
  ollama_run w (ollama_calls st) (build_analysis_prompt title article) =
    (0%Z, out, err) ->
  exists st', pipeline w title article st = (st', Ok tt).
Proof.
  intros Ho. rewrite (pipeline_analysis_ok _ _ _ _ _ _ Ho).
  unfold try_except.
  destruct (try_body w article (strip out) (analysed st title article))
    as [st1 [[]|e]].
  - exists st1. reflexivity.
  - destruct (handler_quiet (strip out) e st1) as (evs & -> & _).
    eexists. reflexivity.
Qed.

(** X10: once the extraction has given a non-empty title and body and the
    Analyzer's model invocation has returned status 0, the process ends
    normally whatever happens next: every later failure is taken by one of
    the two [except] clauses, and neither clause raises. *)
Theorem exits_normally_after_analysis (w : world) (st : run_state)
  (title article out err : string) :
  extract_article_with_playwright w url initial_state =
    (st, Ok (Some title, Some article)) ->
  non_empty title = true -> non_empty article = true ->
  ollama_run w (ollama_calls st) (build_analysis_prompt title article) =
    (0%Z, out, err) ->
  snd (run w) = ExitedNormally.
Proof.
  intros Hx Ht Ha Ho. rewrite (run_of_pipeline w st title article Hx Ht Ha).
  destruct (pipeline_returns w st title article out err Ho) as [st' ->].
  reflexivity.
Qed.

Lemma exits_normally_after_analysis_witness :
  snd (run reviser_down_world) = ExitedNormally /\
  snd (run bad_json_world) = ExitedNormally.
Proof.
  split.
  - apply (exits_normally_after_analysis reviser_down_world
             (mk_state extracted_trace 0) "Sample Title" "Para one." "{}"
             "model unavailable"); reflexivity.
  - apply (exits_normally_after_analysis bad_json_world
             (mk_state extracted_trace 0) "Sample Title" "Para one." "{oops}"
             "model unavailable"); reflexivity.
Defined.



(** *** Model invocations and what is printed *)

Lemma run_trace_of_pipeline (w : world) (st : run_state)
  (title article : string) :
  extract_article_with_playwright w url initial_state =
    (st, Ok (Some title, Some article)) ->
  non_empty title = true -> non_empty article = true ->
  fst (run w) = trace (fst (pipeline w title article st)).
Proof.
  intros Hx Ht Ha. rewrite (run_of_pipeline w st title article Hx Ht Ha).
  destruct (pipeline w title article st) as [st' [u|e]]; reflexivity.
Qed.

(** The [try] block invokes the model at most once, with a prompt that
    [build_revision_prompt] has built. *)
Lemma try_body_invocations (w : world) (article response : string)
  (st : run_state) :
  exists evs,
    trace (fst (try_body w article response st)) = (trace st ++ evs)%list /\
    (model_invocations evs = [] \/
     exists analysis prompt,
       build_revision_prompt article analysis = Ok prompt /\
       model_invocations evs = [prompt]).
Proof.
  destruct (extract_json response) as [json_str|e] eqn:H1.
  2:{ rewrite (try_body_no_json _ _ _ _ _ H1). exists [].
      cbn [fst]. rewrite app_nil_r. split; [reflexivity|left; reflexivity]. }
  destruct (json_loads w json_str) as [raw|e] eqn:H2.
  2:{ rewrite (try_body_bad_json _ _ _ _ _ _ H1 H2). exists [].
      cbn [fst]. rewrite app_nil_r. split; [reflexivity|left; reflexivity]. }
  destruct (normalize_analysis_json raw) as [analysis|e] eqn:H3.
  2:{ exists []. unfold try_body. run_step. rewrite H1, H2, H3.
      cbn [fst]. rewrite app_nil_r. split; [reflexivity|left; reflexivity]. }
  destruct (build_revision_prompt article analysis) as [prompt|e] eqn:H4.
  2:{ exists (report_events w analysis). unfold try_body. run_step.
      rewrite H1, H2, H3, H4. cbn [fst trace]. unfold report_events.
      rewrite <- !app_assoc. split; [reflexivity|left; reflexivity]. }
  rewrite (try_body_reviser _ _ _ _ _ _ _ _ H1 H2 H3 H4).
  unfold query_ollama. run_step.
  destruct (ollama_run w (ollama_calls st) prompt) as [[status out] err].
  destruct (status =? 0)%Z.
  - exists (report_events w analysis ++ revision_events prompt (strip out))%list.
    cbn [fst trace]. unfold revision_events. rewrite <- !app_assoc.
    split; [reflexivity|]. right. exists analysis, prompt.
    split; [exact H4|]. rewrite model_invocations_app. reflexivity.
  - exists (report_events w analysis ++ [OllamaRun prompt])%list.
    cbn [fst trace]. rewrite <- !app_assoc.
    split; [reflexivity|]. right. exists analysis, prompt.
    split; [exact H4|]. rewrite model_invocations_app. reflexivity.
Qed.

Lemma pipeline_invocations (w : world) (title article : string)
  (st : run_state) :
  exists evs,
    trace (fst (pipeline w title article st)) = (trace st ++ evs)%list /\
    (model_invocations evs = [build_analysis_prompt title article] \/
     exists analysis prompt,
       build_revision_prompt article analysis = Ok prompt /\
       model_invocations evs =
         [build_analysis_prompt title article; prompt]).
Proof.
  destruct (ollama_run w (ollama_calls st) (build_analysis_prompt title article))
    as [[status out] err] eqn:E.
  destruct (Z.eq_dec status 0) as [->|Hs].
  - rewrite (pipeline_analysis_ok _ _ _ _ _ _ E). unfold try_except.
    destruct (try_body_invocations w article (strip out)
                (analysed st title article)) as (evs & Hevs & Hinv).
    destruct (try_body w article (strip out) (analysed st title article))
      as [st1 [u|e]]; cbn [fst] in Hevs.
    + exists (analysis_events title article ++ evs)%list. cbn [fst].
      rewrite Hevs. unfold analysed. cbn [trace]. rewrite <- app_assoc.
      split; [reflexivity|]. rewrite model_invocations_app.
      destruct Hinv as [->|(analysis & prompt & Hp & ->)];
        [left; reflexivity|right; exists analysis, prompt; split;
                           [exact Hp|reflexivity]].
    + destruct (handler_quiet (strip out) e st1) as (hevs & -> & Hq).
      exists (analysis_events title article ++ evs ++ hevs)%list.
      cbn [fst trace]. rewrite Hevs. unfold analysed. cbn [trace].
      rewrite <- !app_assoc. split; [reflexivity|].
      rewrite !model_invocations_app, Hq, app_nil_r.
      destruct Hinv as [->|(analysis & prompt & Hp & ->)];
        [left; reflexivity|right; exists analysis, prompt; split;
                           [exact Hp|reflexivity]].
  - rewrite (pipeline_analysis_fails _ _ _ _ _ _ _ E Hs).
    exists (analysis_events title article). cbn [fst analysed trace].
    split; [reflexivity|left; reflexivity].
Qed.

(** X12: a run invokes the model at most twice and never retries: there is
    no invocation at all, or the first is the analysis prompt of a
    non-empty extracted title and body, and the second, if there is one, is
    a revision prompt built for that body. *)
Theorem at_most_two_invocations (w : world) :
  model_invocations (fst (run w)) = [] \/
  exists st title body,
    extract_article_with_playwright w url initial_state =
      (st, Ok (Some title, Some body)) /\
    non_empty title = true /\ non_empty body = true /\
    (model_invocations (fst (run w)) = [build_analysis_prompt title body] \/
     exists analysis prompt,
       build_revision_prompt body analysis = Ok prompt /\
       model_invocations (fst (run w)) =
         [build_analysis_prompt title body; prompt]).
Proof.
  destruct (extract_article_with_playwright w url initial_state)
    as [st [[t a]|e]] eqn:Hx.
  - destruct (extract_no_invocation w _ _ Hx) as [Hnone _].
    destruct (truthy_str t && truthy_str a) eqn:Hb.
    + apply andb_prop in Hb. destruct Hb as [Hb1 Hb2].
      destruct t as [title|]; [|discriminate Hb1].
      destruct a as [body|]; [|discriminate Hb2].
      cbn in Hb1, Hb2. right. exists st, title, body.
      split; [reflexivity|]. split; [exact Hb1|]. split; [exact Hb2|].
      rewrite (run_trace_of_pipeline w st title body Hx Hb1 Hb2).
      destruct (pipeline_invocations w title body st) as (evs & -> & Hinv).
      rewrite model_invocations_app, Hnone. exact Hinv.
    + left. rewrite (run_skipped w _ _ _ Hx Hb). exact Hnone.
  - left. rewrite (run_extract_raises w _ _ Hx).
    apply (extract_no_invocation w _ _ Hx).
Qed.

(** X13: the whole successful run: after the extraction come the title,
    the preview and the Analyzer's invocation, then the printed analysis,
    then the Reviser's invocation, and last the Reviser's answer, printed
    stripped and otherwise as it came. *)
Theorem successful_run (w : world) (st : run_state)
  (title article out err json_str prompt out2 err2 : string)
  (raw analysis : json) :
  extract_article_with_playwright w url initial_state =
    (st, Ok (Some title, Some article)) ->
  non_empty title = true -> non_empty article = true ->
  ollama_run w (ollama_calls st) (build_analysis_prompt title article) =
    (0%Z, out, err) ->
  extract_json (strip out) = Ok json_str ->
  json_loads w json_str = Ok raw ->
  normalize_analysis_json raw = Ok analysis ->
  build_revision_prompt article analysis = Ok prompt ->
  ollama_run w (S (ollama_calls st)) prompt = (0%Z, out2, err2) ->
  run w =
    ((trace st ++ analysis_events title article ++
      report_events w analysis ++ revision_events prompt (strip out2))%list,
     ExitedNormally).
Proof.
  intros Hx Ht Ha Ho H1 H2 H3 H4 Hr.
  rewrite (run_of_pipeline w st title article Hx Ht Ha).
  rewrite (pipeline_analysis_ok _ _ _ _ _ _ Ho). unfold try_except.
  rewrite (try_body_reviser _ _ _ _ _ _ _ _ H1 H2 H3 H4).
  unfold query_ollama, analysed. run_step. rewrite Hr. cbn [Z.eqb trace].
  unfold revision_events. rewrite <- !app_assoc. reflexivity.
Qed.

Lemma successful_run_witness :
  exists analysis prompt,
    normalize_analysis_json flat_analysis = Ok analysis /\
    build_revision_prompt "Para one." analysis = Ok prompt /\
    run (sample_world (Some (Some "Sample Title")) (Some "Para one.") 0 "{}"
           (fun _ => Ok flat_analysis) 0) =
      ((extracted_trace ++ analysis_events "Sample Title" "Para one." ++
        report_events
          (sample_world (Some (Some "Sample Title")) (Some "Para one.") 0 "{}"
             (fun _ => Ok flat_analysis) 0) analysis ++
        revision_events prompt "Revised.")%list,
       ExitedNormally).
Proof.
  do 2 eexists. split; [reflexivity|]. split; [reflexivity|].
  apply (successful_run
           (sample_world (Some (Some "Sample Title")) (Some "Para one.") 0 "{}"
              (fun _ => Ok flat_analysis) 0)
           (mk_state extracted_trace 0) "Sample Title" "Para one." "{}"
           "model unavailable" "{}" _ "Revised." "model unavailable"
           flat_analysis _);
    reflexivity.
Defined.

(** X14: a flat answer that lacks [structure] is reported by the generic
    clause as the bare quoted key, before anything of the analysis is
    printed and without the Reviser being invoked; a flat answer whose
    [style_guidelines] is a plain string has its analysis printed and then
    fails in the same clause on the list and the string that do not add. *)
Theorem flat_answer_failures (w : world) (st : run_state)
  (title article out err json_str r : string) (d : dict) :
  extract_article_with_playwright w url initial_state =
    (st, Ok (Some title, Some article)) ->
  non_empty title = true -> non_empty article = true ->
  ollama_run w (ollama_calls st) (build_analysis_prompt title article) =
    (0%Z, out, err) ->
  extract_json (strip out) = Ok json_str ->
  json_loads w json_str = Ok (JDict d) ->
  dict_lookup "readability" d = Some (JStr r) ->
  (dict_lookup "structure" d = None ->
   run w =
     ((trace st ++ analysis_events title article ++
       [Print "Error during processing: 'structure'"])%list,
      ExitedNormally)) /\
  (forall s c g analysis,
     dict_lookup "structure" d = Some s ->
     dict_lookup "completeness" d = Some c ->
     dict_lookup "style_guidelines" d = Some (JStr g) ->
     normalize_analysis_json (JDict d) = Ok analysis ->
     run w =
       ((trace st ++ analysis_events title article ++
         report_events w analysis ++
         [Print ("Error during processing: "
                 ++ exn_str (cannot_concatenate "list" (JStr g)))])%list,
        ExitedNormally)).
Proof.
  intros Hx Ht Ha Ho H1 H2 Hr. split.
  - intros Hs.
    rewrite (run_of_pipeline w st title article Hx Ht Ha).
    rewrite (pipeline_analysis_ok _ _ _ _ _ _ Ho). unfold try_except.
    assert (Hbody : try_body w article (strip out) (analysed st title article)
                    = (analysed st title article,
                       Raise (mk_exn KeyError "'structure'"))).
    { unfold try_body. run_step. rewrite H1, H2.
      unfold normalize_analysis_json. rewrite Hr.
      rewrite (wrap_present _ _ _ Hr), (wrap_absent _ _ Hs). reflexivity. }
    rewrite Hbody, handler_generic by reflexivity.
    unfold analysed. cbn [trace ollama_calls exn_str].
    rewrite <- !app_assoc. reflexivity.
  - intros s c g analysis Hs Hc Hg Hn.
    rewrite (run_of_pipeline w st title article Hx Ht Ha).
    rewrite (pipeline_analysis_ok _ _ _ _ _ _ Ho). unfold try_except.
    assert (Hp : build_revision_prompt article analysis =
                 Raise (cannot_concatenate "list" (JStr g))).
    { rewrite (normalize_flat_exact d r s c Hr Hs Hc) in Hn.
      injection Hn as <-. unfold dict_get. rewrite Hg. reflexivity. }
    assert (Hbody : try_body w article (strip out) (analysed st title article)
                    = (mk_state (trace (analysed st title article)
                                 ++ report_events w analysis)
                         (ollama_calls (analysed st title article)),
                       Raise (cannot_concatenate "list" (JStr g)))).
    { unfold try_body. run_step. rewrite H1, H2, Hn, Hp.
      unfold report_events. rewrite <- !app_assoc. reflexivity. }
    rewrite Hbody, handler_generic by reflexivity.
    unfold analysed. cbn [trace ollama_calls].
    rewrite <- !app_assoc. reflexivity.
Qed.

Lemma flat_answer_failures_witness :
  run (sample_world (Some (Some "Sample Title")) (Some "Para one.") 0 "{}"
         (fun _ => Ok (JDict [("readability", JStr "clear")])) 0) =
    ((extracted_trace ++ analysis_events "Sample Title" "Para one." ++
      [Print "Error during processing: 'structure'"])%list,
     ExitedNormally).
Proof.
  refine (proj1 (flat_answer_failures
                   (sample_world (Some (Some "Sample Title"))
                      (Some "Para one.") 0 "{}"
                      (fun _ => Ok (JDict [("readability", JStr "clear")])) 0)
                   (mk_state extracted_trace 0) "Sample Title" "Para one."
                   "{}" "model unavailable" "{}" "clear"
                   [("readability", JStr "clear")]
                   eq_refl eq_refl eq_refl eq_refl eq_refl eq_refl eq_refl)
            eq_refl).
Defined.

(** *** Edges: the preview and a blank answer *)

(** X15: the preview [article[:n]] (the entry point takes [n = 1000]) is a
    prefix of the article of length [min n (len article)]; an article of at
    most [n] characters is shown whole. *)
Theorem preview_is_bounded_prefix (n : nat) (article : string) :
  String.length (take n article) = Nat.min n (String.length article) /\
  (exists rest, article = take n article ++ rest) /\
  (String.length article <= n -> take n article = article).
Proof.
  revert n. induction article as [|c article IH]; intros n.
  - destruct n; cbn; repeat split; try (exists EmptyString; reflexivity).
  - destruct n as [|n].
    + cbn. split; [reflexivity|]. split.
      * exists (String c article). reflexivity.
      * intros H. lia.
    + destruct (IH n) as (Hl & [rest Hr] & Hw). cbn. split; [|split].
      * rewrite Hl. reflexivity.
      * exists rest. rewrite <- Hr. reflexivity.
      * intros H. rewrite Hw by lia. reflexivity.
Qed.

Lemma preview_is_bounded_prefix_witness :
  take 4 "Para one." = "Para" /\ take 1000 "Para one." = "Para one.".
Proof.
  split; [reflexivity|].
  apply (proj2 (proj2 (preview_is_bounded_prefix 1000 "Para one."))).
  cbn. lia.
Defined.

Lemma lstrip_all_space (s : string) :
  all_space s = true -> lstrip s = EmptyString.
Proof.
  induction s as [|c s IH]; intros H; [reflexivity|].
  cbn in H. apply andb_prop in H. destruct H as [Hc Hs].
  cbn. rewrite Hc. apply IH, Hs.
Qed.

Lemma strip_all_space (s : string) :
  all_space s = true -> strip s = EmptyString.
Proof.
  intros H. unfold strip. rewrite (lstrip_all_space s H). reflexivity.
Qed.

(** X16: when the Analyzer's model invocation returns status 0 with an
    empty or all-white-space output, the run reports a parse failure with
    an empty raw output and ends normally, the Reviser not being invoked. *)
Theorem blank_answer_is_parse_failure (w : world) (st : run_state)
  (title article out err : string) :
  extract_article_with_playwright w url initial_state =
    (st, Ok (Some title, Some article)) ->
  non_empty title = true -> non_empty article = true ->
  ollama_run w (ollama_calls st) (build_analysis_prompt title article) =
    (0%Z, out, err) ->
  all_space out = true ->
  run w =
    ((trace st ++ analysis_events title article ++
      [Print "Failed to parse JSON from analysis response. Raw output:";
       Print EmptyString;
       Print "Parsing error: No JSON object found in text"])%list,
     ExitedNormally).
Proof.
  intros Hx Ht Ha Ho Hb.
  rewrite (run_of_pipeline w st title article Hx Ht Ha).
  rewrite (pipeline_analysis_ok _ _ _ _ _ _ Ho).
  rewrite (strip_all_space out Hb). unfold try_except.
  rewrite (try_body_no_json w article EmptyString _
             (mk_exn ValueError "No JSON object found in text") eq_refl).
  rewrite handler_parse by reflexivity.
  unfold analysed. cbn [trace ollama_calls exn_str].
  rewrite <- !app_assoc. reflexivity.
Qed.

Lemma blank_answer_is_parse_failure_witness :
  run (sample_world (Some (Some "Sample Title")) (Some "Para one.") 0 "  "
         (fun _ => Ok flat_analysis) 0) =
    ((extracted_trace ++ analysis_events "Sample Title" "Para one." ++
      [Print "Failed to parse JSON from analysis response. Raw output:";
       Print EmptyString;
       Print "Parsing error: No JSON object found in text"])%list,
     ExitedNormally).
Proof.
  apply (blank_answer_is_parse_failure
           (sample_world (Some (Some "Sample Title")) (Some "Para one.") 0
              "  " (fun _ => Ok flat_analysis) 0)
           (mk_state extracted_trace 0) "Sample Title" "Para one." "  "
           "model unavailable");
    reflexivity.
Defined.
